(** * A model of the image editor: mask painting, mask export,
      compression and the edit request gateway.

    Sources: [src/app/components/ImageEditor.tsx] (client component) and
    [src/unnamed/part_000] (the [/api/edit-image] route handler).

    Modelling choices.
    - A canvas backing store, as returned by [getImageData], is an
      [ImageData]: width, height and the flat RGBA byte array
      (stride 4, values 0..255), as a [list Z]; writes go through
      stdpp's list insert, which like a [Uint8ClampedArray] ignores
      out-of-range indices.
    - Everything the browser decides (image decoding, JPEG encoding,
      the antialiased coverage of a filled arc) is a field of a
      [Browser] record, so every theorem holds for every browser.
    - A PNG encoding is lossless: a PNG produced from a canvas is
      modelled by the raster it encodes.
    - JavaScript numbers used as JPEG qualities are modelled as exact
      rationals [Q]; dimensions and byte sizes as [Z].
    - JavaScript strings (the prompt) are lists of UTF-16 code units. *)

From Stdlib Require Import ZArith QArith Qround Qminmax String Lia Wellfounded Wf_nat.
From stdpp Require Import base list pretty.

Open Scope Z_scope.

(* ------------------------------------------------------------------ *)
(** ** Rasters *)

Record ImageData := mkImageData {
  iwidth : nat;
  iheight : nat;
  idata : list Z
}.

(** [ImageData] as the canvas API produces it: [4 * width * height]
    bytes, each in 0..255. *)
Definition wf_image (d : ImageData) : Prop :=
  length (idata d) = (4 * iwidth d * iheight d)%nat /\
  Forall (fun v => 0 <= v <= 255) (idata d).

(** The four channels of pixel [p] (row-major index). *)
Definition pixel (d : list Z) (p : nat) : Z * Z * Z * Z :=
  (d !!! (4 * p)%nat, d !!! (4 * p + 1)%nat,
   d !!! (4 * p + 2)%nat, d !!! (4 * p + 3)%nat).

(** [createImageData(w, h)]: transparent black. *)
Definition createImageData (w h : nat) : ImageData :=
  mkImageData w h (replicate (4 * w * h) 0).

(** Setting [canvas.width] / [canvas.height] clears the backing store
    to transparent black at the new size. *)
Definition canvas_resize (w h : nat) : ImageData := createImageData w h.

(** [fillStyle = colour; fillRect(0, 0, width, height)] with an opaque
    colour replaces every pixel by that colour. *)
Definition fill_all (r g b : Z) (d : ImageData) : ImageData :=
  mkImageData (iwidth d) (iheight d)
    (mjoin (replicate (iwidth d * iheight d) [r; g; b; 255])).

Definition fill_black (d : ImageData) : ImageData := fill_all 0 0 0 d.

(* ------------------------------------------------------------------ *)
(** ** Mask Exporter: [generateMaskImage], lines 319-377 *)

(** [isWhite = maskImageData.data[i] > 128] and the value written to the
    four channels. *)
Definition alpha_value (red : Z) : Z :=
  if bool_decide (128 < red) then 255 else 0.

(** The body of the loop at index [i]: writes R, G, B and A in that
    order. *)
Definition alpha_body (mask : list Z) (i : nat) (alpha : list Z) : list Z :=
  let v := alpha_value (mask !!! i) in
  <[(i + 3)%nat := v]> (<[(i + 2)%nat := v]> (<[(i + 1)%nat := v]>
    (<[i := v]> alpha))).

(** [for (let i = 0; i < maskImageData.data.length; i += 4)], run with
    a fuel that bounds the number of iterations. *)
Fixpoint alpha_loop (fuel i : nat) (mask alpha : list Z) : list Z :=
  match fuel with
  | O => alpha
  | S fuel' =>
      if decide (i < length mask)%nat
      then alpha_loop fuel' (i + 4) mask (alpha_body mask i alpha)
      else alpha
  end.

(** The alpha mask computed from the mask canvas; the loop runs at most
    [length data] times, which is more than the [length data / 4]
    iterations it needs. The result is then PNG encoded (lossless). *)
Definition generateMaskImage_data (m : ImageData) : ImageData :=
  let md := idata m in
  let alpha := createImageData (iwidth m) (iheight m) in
  mkImageData (iwidth m) (iheight m) (alpha_loop (length md) 0 md (idata alpha)).

(* ------------------------------------------------------------------ *)
(** ** Files, decoded images and the browser *)

Record File := mkFile {
  fname : string;
  ftype : string;
  fsize : Z;
  flastModified : Z
}.

(** A decoded [HTMLImageElement]: natural size and its RGBA pixels. *)
Record Img := mkImg {
  img_width : nat;
  img_height : nat;
  img_pixels : list Z
}.

(** What the browser decides. *)
Record Browser := mkBrowser {
  (** [img.onload] (Some) or [img.onerror] (None) for a file *)
  decode : File -> option Img;
  (** [canvas.getContext('2d')] is not null *)
  ctx2d_ok : bool;
  (** [canvas.toBlob(cb, 'image/jpeg', quality)] on a canvas of the given
      integer size holding the drawn image of the file: the blob size, or
      None when the callback receives [null] *)
  to_jpeg_blob : File -> Z -> Z -> Q -> option Z;
  (** [FileReader] calls [onload] (true) or [onerror] (false) *)
  read_ok : File -> bool;
  (** [Date.now()] *)
  now : Z;
  (** antialiased coverage (0..255) of pixel (px, py) by the filled disc
      [arc(x, y, r, 0, 2 * Math.PI)] *)
  arc_coverage : Q -> Q -> Q -> nat -> nat -> Z
}.

(* ------------------------------------------------------------------ *)
(** ** Compressor: [compressImage], lines 32-115 *)

Definition Qgtb (a b : Q) : bool := negb (Qle_bool a b).

(** "Calculate new dimensions", lines 51-63. *)
Definition resize (iw ih td : Z) : Q * Q :=
  let w := inject_Z iw in
  let h := inject_Z ih in
  let t := inject_Z td in
  if Qgtb w h then
    (if Qgtb w t then (t, (h * t / w)%Q) else (w, h))
  else
    (if Qgtb h t then ((w * t / h)%Q, t) else (w, h)).

(** [canvas.width = width]: the IDL [unsigned long] conversion truncates
    (the values here are non-negative). *)
Definition canvas_dim (x : Q) : Z := Qfloor x.

(** The settled value of the promise returned by [compressImage]. Its
    executor only ever calls [resolve]; [Pending] is a promise still
    waiting after the modelled number of calls. *)
Inductive file_promise :=
| Resolved (f : File)
| Rejected (msg : string)
| Pending.

(** One call of [compressWithSettings(targetQuality, targetDimension)]:
    it either resolves with a file or calls itself again. *)
Inductive cws_result :=
| CwsDone (f : File)
| CwsRetry (q : Q) (d : Z).

Definition cws_step (B : Browser) (file : File) (img : Img) (maxSizeKB : Z)
    (targetQuality : Q) (targetDimension : Z) : cws_result :=
  let '(width, height) :=
    resize (Z.of_nat (img_width img)) (Z.of_nat (img_height img)) targetDimension in
  if ctx2d_ok B then
    match to_jpeg_blob B file (canvas_dim width) (canvas_dim height) targetQuality with
    | Some blob_size =>
        let compressedFile := mkFile (fname file) "image/jpeg"%string blob_size (now B) in
        if Z.gtb (fsize compressedFile) (maxSizeKB * 1024) then
          if Qgtb targetQuality (1 # 10) && Z.gtb targetDimension 400 then
            let newQuality := Qmax (1 # 10) (targetQuality - (2 # 10))%Q in
            let newDimension := Z.max 400 (targetDimension - 200) in
            CwsRetry newQuality newDimension
          else CwsDone compressedFile
        else CwsDone compressedFile
    | None => CwsDone file
    end
  else CwsDone file.

(** The chain of calls, at most [fuel] of them. *)
Fixpoint compressWithSettings (B : Browser) (file : File) (img : Img)
    (maxSizeKB : Z) (fuel : nat) (q : Q) (d : Z) : file_promise :=
  match fuel with
  | O => Pending
  | S fuel' =>
      match cws_step B file img maxSizeKB q d with
      | CwsDone f => Resolved f
      | CwsRetry q' d' => compressWithSettings B file img maxSizeKB fuel' q' d'
      end
  end.

(** The branch taken once the file is over the budget: decode it
    ([img.onload] / [img.onerror]) and start compressing. The chain is
    run with [1 + maxDimension] calls, which the termination theorem
    shows is never exhausted. *)
Definition decode_and_compress (B : Browser) (file : File) (maxSizeKB : Z)
    : file_promise :=
  match decode B file with
  | None => Resolved file
  | Some img =>
      let quality := if Z.gtb (fsize file) (10 * 1024 * 1024) then 3 # 10 else 7 # 10 in
      let maxDimension := if Z.gtb (fsize file) (10 * 1024 * 1024) then 800 else 1200 in
      compressWithSettings B file img maxSizeKB (S (Z.to_nat maxDimension))
        quality maxDimension
  end.

Definition compressImage (B : Browser) (file : File) (maxSizeKB : Z) : file_promise :=
  if Z.leb (fsize file) (maxSizeKB * 1024) then Resolved file
  else decode_and_compress B file maxSizeKB.

(* ------------------------------------------------------------------ *)
(** ** Prompts: JavaScript [String.prototype.trim] *)

(** WhiteSpace and LineTerminator code units of ECMAScript. *)
Definition is_js_space (c : Z) : bool :=
  bool_decide (c = 9 \/ c = 10 \/ c = 11 \/ c = 12 \/ c = 13 \/ c = 32 \/
                c = 160 \/ c = 5760 \/ (8192 <= c <= 8202) \/ c = 8232 \/
                c = 8233 \/ c = 8239 \/ c = 8287 \/ c = 12288 \/ c = 65279).

Fixpoint drop_spaces (s : list Z) : list Z :=
  match s with
  | [] => []
  | c :: s' => if is_js_space c then drop_spaces s' else s
  end.

Definition js_trim (s : list Z) : list Z :=
  reverse (drop_spaces (reverse (drop_spaces s))).

(** A JavaScript string is falsy exactly when it is empty. *)
Definition js_truthy (s : list Z) : bool :=
  match s with [] => false | _ => true end.

(* ------------------------------------------------------------------ *)
(** ** The editor session: refs and React state of [ImageEditor] *)

Record Session := mkSession {
  canvasRef : option ImageData;      (** display canvas, None while unmounted *)
  maskCanvasRef : option ImageData;  (** hidden mask canvas (the MaskBuffer) *)
  originalImageData : option ImageData;
  image : option Img;
  originalFile : option File;
  isDrawing : bool;
  brushSize : Z;
  prompt : list Z;
  editedImage : option string;
  maskImage : option ImageData;      (** the AlphaMask (a PNG data URL) *)
  isLoading : bool;
  error : string
}.

Definition initial_session : Session :=
  mkSession None None None None None false 20 [] None None false EmptyString.

Definition set_canvas (c : option ImageData) (s : Session) : Session :=
  mkSession c (maskCanvasRef s) (originalImageData s) (image s) (originalFile s)
    (isDrawing s) (brushSize s) (prompt s) (editedImage s) (maskImage s)
    (isLoading s) (error s).
Definition set_maskCanvas (m : option ImageData) (s : Session) : Session :=
  mkSession (canvasRef s) m (originalImageData s) (image s) (originalFile s)
    (isDrawing s) (brushSize s) (prompt s) (editedImage s) (maskImage s)
    (isLoading s) (error s).
Definition set_originalImageData (o : option ImageData) (s : Session) : Session :=
  mkSession (canvasRef s) (maskCanvasRef s) o (image s) (originalFile s)
    (isDrawing s) (brushSize s) (prompt s) (editedImage s) (maskImage s)
    (isLoading s) (error s).
Definition setImage (i : option Img) (s : Session) : Session :=
  mkSession (canvasRef s) (maskCanvasRef s) (originalImageData s) i (originalFile s)
    (isDrawing s) (brushSize s) (prompt s) (editedImage s) (maskImage s)
    (isLoading s) (error s).
Definition setOriginalFile (f : option File) (s : Session) : Session :=
  mkSession (canvasRef s) (maskCanvasRef s) (originalImageData s) (image s) f
    (isDrawing s) (brushSize s) (prompt s) (editedImage s) (maskImage s)
    (isLoading s) (error s).
Definition setIsDrawing (b : bool) (s : Session) : Session :=
  mkSession (canvasRef s) (maskCanvasRef s) (originalImageData s) (image s)
    (originalFile s) b (brushSize s) (prompt s) (editedImage s) (maskImage s)
    (isLoading s) (error s).
Definition setBrushSize (n : Z) (s : Session) : Session :=
  mkSession (canvasRef s) (maskCanvasRef s) (originalImageData s) (image s)
    (originalFile s) (isDrawing s) n (prompt s) (editedImage s) (maskImage s)
    (isLoading s) (error s).
Definition setPrompt (p : list Z) (s : Session) : Session :=
  mkSession (canvasRef s) (maskCanvasRef s) (originalImageData s) (image s)
    (originalFile s) (isDrawing s) (brushSize s) p (editedImage s) (maskImage s)
    (isLoading s) (error s).
Definition setEditedImage (e : option string) (s : Session) : Session :=
  mkSession (canvasRef s) (maskCanvasRef s) (originalImageData s) (image s)
    (originalFile s) (isDrawing s) (brushSize s) (prompt s) e (maskImage s)
    (isLoading s) (error s).
Definition setMaskImage (m : option ImageData) (s : Session) : Session :=
  mkSession (canvasRef s) (maskCanvasRef s) (originalImageData s) (image s)
    (originalFile s) (isDrawing s) (brushSize s) (prompt s) (editedImage s) m
    (isLoading s) (error s).
Definition setIsLoading (b : bool) (s : Session) : Session :=
  mkSession (canvasRef s) (maskCanvasRef s) (originalImageData s) (image s)
    (originalFile s) (isDrawing s) (brushSize s) (prompt s) (editedImage s)
    (maskImage s) b (error s).
Definition setError (e : string) (s : Session) : Session :=
  mkSession (canvasRef s) (maskCanvasRef s) (originalImageData s) (image s)
    (originalFile s) (isDrawing s) (brushSize s) (prompt s) (editedImage s)
    (maskImage s) (isLoading s) e.

(** React commit: the two canvases are rendered inside [{image && ...}],
    so their refs are attached (with the default 300x150 transparent
    backing store) once [image] is set, and keep their backing store
    afterwards. *)
Definition render (s : Session) : Session :=
  match image s with
  | None => set_maskCanvas None (set_canvas None s)
  | Some _ =>
      let c := match canvasRef s with Some c => c | None => canvas_resize 300 150 end in
      let m := match maskCanvasRef s with Some m => m | None => canvas_resize 300 150 end in
      set_maskCanvas (Some m) (set_canvas (Some c) s)
  end.

(** [setupCanvas], lines 162-199. *)
Definition setupCanvas (B : Browser) (img : Img) (s : Session) : Session :=
  match canvasRef s, maskCanvasRef s with
  | Some _, Some _ =>
      if ctx2d_ok B then
        let w := img_width img in
        let h := img_height img in
        (* canvas.width/height = img size; drawImage(img, 0, 0) *)
        let c := mkImageData w h (img_pixels img) in
        (* maskCanvas.width/height = img size; fill black *)
        let m := fill_black (canvas_resize w h) in
        set_originalImageData (Some c) (set_maskCanvas (Some m) (set_canvas (Some c) s))
      else s
  | _, _ => s
  end.

(** The red tint of [updateCanvasWithMask], lines 249-256, on the
    restored original pixels: byte [j] belongs to pixel [j / 4]. *)
Definition tint (mask : list Z) (j : nat) (v : Z) : Z :=
  if bool_decide (128 < mask !!! (4 * (j / 4))%nat) then
    match (j mod 4)%nat with
    | 0%nat => Z.min 255 (v + 100)
    | 1%nat | 2%nat => Z.max 0 (v - 50)
    | _ => v
    end
  else v.

Definition updateCanvasWithMask (B : Browser) (s : Session) : Session :=
  match canvasRef s, maskCanvasRef s, originalImageData s with
  | Some c, Some m, Some o =>
      if ctx2d_ok B then
        set_canvas (Some (mkImageData (iwidth c) (iheight c)
                            (imap (tint (idata m)) (idata o)))) s
      else s
  | _, _, _ => s
  end.

(** Source-over compositing of opaque white at coverage [a] (0..255) on
    one channel [v]: [(255 a + v (255 - a)) / 255], rounded. *)
Definition blend_white (a v : Z) : Z := (255 * a + v * (255 - a) + 127) / 255.

(** [fillStyle = 'white'; arc(x, y, r, 0, 2 PI); fill()] on the mask. *)
Definition fill_circle (cov : nat -> nat -> Z) (m : ImageData) : ImageData :=
  let w := iwidth m in
  mkImageData w (iheight m)
    (imap (fun j v => blend_white (cov ((j / 4) mod w)%nat ((j / 4) / w)%nat) v) (idata m)).

(** [drawMask(x, y)], lines 262-277. *)
Definition drawMask (B : Browser) (x y : Q) (s : Session) : Session :=
  match maskCanvasRef s with
  | Some m =>
      if ctx2d_ok B then
        let r := (inject_Z (brushSize s) / 2)%Q in
        updateCanvasWithMask B
          (set_maskCanvas (Some (fill_circle (arc_coverage B x y r) m)) s)
      else s
  | None => s
  end.

(** [clearMask], lines 299-316. *)
Definition clearMask (B : Browser) (s : Session) : Session :=
  match originalImageData s with
  | None => s
  | Some o =>
      match canvasRef s, maskCanvasRef s with
      | Some c, Some m =>
          if ctx2d_ok B then
            set_canvas (Some (mkImageData (iwidth c) (iheight c) (idata o)))
              (set_maskCanvas (Some (fill_black m)) s)
          else s
      | _, _ => s
      end
  end.

(** [generateMaskImage], lines 319-377. *)
Definition generateMaskImage (B : Browser) (s : Session) : Session :=
  match maskCanvasRef s with
  | None => setError "Mask canvas not found" s
  | Some m =>
      if ctx2d_ok B then
        setError EmptyString (setMaskImage (Some (generateMaskImage_data m)) s)
      else setError "Mask canvas context not found" s
  end.

(** [handleImageUpload], lines 118-159, run until the decoded image is
    set up (or an error is reported). *)
Definition handleImageUpload (B : Browser) (file : File) (s : Session) : Session :=
  let s1 := setMaskImage None (setEditedImage None (setError EmptyString s)) in
  match compressImage B file 4000 with
  | Resolved compressedFile =>
      let s2 := setOriginalFile (Some compressedFile) s1 in
      if read_ok B compressedFile then
        match decode B compressedFile with
        | Some img => setupCanvas B img (setImage (Some img) s2)
        | None => setError "Failed to load image. Please try another file." s2
        end
      else setError "Failed to read file. Please try again." s2
  | Rejected _ => setError "Failed to process image. Please try another file." s1
  | Pending => s1
  end.

(** The [EditRequest]: the multipart fields [image], [mask] and
    [prompt] sent to [/api/edit-image]. *)
Record EditRequest := mkEditRequest {
  req_image : File;
  req_mask : ImageData;   (** the PNG blob of the mask canvas *)
  req_prompt : list Z
}.

(** [handleSubmit], lines 390-448, up to the [fetch] it issues (if any). *)
Definition handleSubmit (s : Session) : Session * option EditRequest :=
  let refuse := (setError "Please upload an image and enter a prompt" s, None) in
  match originalFile s with
  | None => refuse
  | Some f =>
      if negb (js_truthy (js_trim (prompt s))) then refuse
      else
        let s1 := setError EmptyString (setIsLoading true s) in
        match maskCanvasRef s1 with
        | None =>
            (setIsLoading false
               (setError "Error submitting request: Mask canvas not found" s1), None)
        | Some maskCanvas =>
            (* maskCanvas.toBlob(..., 'image/png') *)
            (s1, Some (mkEditRequest f maskCanvas (prompt s)))
        end
  end.

(** User events and React commits. *)
Inductive event :=
| StartDrawing (x y : Q)
| ContinueDrawing (x y : Q)
| StopDrawing
| ClearMask
| GenerateMask
| Submit
| PromptChange (p : list Z)
| BrushSizeChange (n : Z)
| Render.

Definition step (B : Browser) (e : event) (s : Session) : Session :=
  match e with
  | StartDrawing x y => drawMask B x y (setIsDrawing true s)
  | ContinueDrawing x y => if isDrawing s then drawMask B x y s else s
  | StopDrawing => setIsDrawing false s
  | ClearMask => clearMask B s
  | GenerateMask => generateMaskImage B s
  | Submit => fst (handleSubmit s)
  | PromptChange p => setPrompt p s
  | BrushSizeChange n => setBrushSize n s
  | Render => render s
  end.

Fixpoint run (B : Browser) (es : list event) (s : Session) : Session :=
  match es with
  | [] => s
  | e :: es' => run B es' (step B e s)
  end.

(* ------------------------------------------------------------------ *)
(** ** Edit Request Gateway: [POST] of [src/unnamed/part_000], lines 33-87 *)

Record FormFields := mkFormFields {
  ff_image : option File;
  ff_mask : option File;
  ff_prompt : option (list Z)
}.

(** Either a JSON error response, or the call to [openai.images.edit]
    with the files and the trimmed user prompt. *)
Inductive post_outcome :=
| Respond (status : Z) (msg : string)
| CallImagesEdit (image mask : File) (user_prompt : list Z).

Definition isValidImageFile (f : File) : bool :=
  String.prefix "image/" (ftype f).

Definition POST_validate (fd : FormFields) : post_outcome :=
  match ff_image fd, ff_mask fd, ff_prompt fd with
  | Some imageFile, Some maskFile, Some prompt =>
      if negb (js_truthy prompt) then
        Respond 400 "Missing required fields: image, mask, and prompt"
      else
        let maxSize := 4 * 1024 * 1024 in
        if Z.gtb (fsize imageFile) maxSize then Respond 400 "Image file too large"
        else if Z.gtb (fsize maskFile) maxSize then Respond 400 "Mask file too large"
        else if negb (isValidImageFile imageFile) then
          Respond 400 "Invalid image file type. Please upload a valid image file."
        else if negb (isValidImageFile maskFile) then
          Respond 400 "Invalid mask file type. Please provide a valid mask image."
        else if negb (js_truthy (js_trim prompt)) then
          Respond 400 "Prompt must be a non-empty string"
        else CallImagesEdit imageFile maskFile (js_trim prompt)
  | _, _, _ => Respond 400 "Missing required fields: image, mask, and prompt"
  end.

(** The MaskBuffer has the dimensions of the source image [img]. *)
Definition mask_matches (img : Img) (s : Session) : Prop :=
  image s = Some img /\
  exists m, maskCanvasRef s = Some m /\
    iwidth m = img_width img /\ iheight m = img_height img.

(** A mask pixel is white when its red channel is above 128, the test
    used by [updateCanvasWithMask] and [generateMaskImage]. *)
Definition is_white (d : list Z) (p : nat) : bool :=
  bool_decide (128 < d !!! (4 * p)%nat).

Definition white_count (d : ImageData) : nat :=
  length (List.filter (is_white (idata d)) (seq 0 (iwidth d * iheight d))).

(* ------------------------------------------------------------------ *)
(** ** The end of [handleSubmit], lines 420-447 *)

(** The JSON body of the route's answer, as [response.json()] parses it,
    or the message of the error it throws. *)
Inductive api_body :=
| BodyJson (success : bool) (editedImageUrl : option string) (err : option string)
| BodyInvalid (msg : string).

(** What the awaited [fetch] gives: a thrown [Error] (with its message),
    a thrown non-[Error] value, or a response. *)
Inductive fetch_result :=
| FetchThrew (msg : string)
| FetchThrewOther
| FetchResponse (ok : bool) (status : Z) (body : api_body).

Definition str_truthy (s : string) : bool :=
  match s with EmptyString => false | _ => true end.

Definition opt_str_truthy (s : option string) : bool :=
  match s with Some s' => str_truthy s' | None => false end.

(** The [try]/[catch]/[finally] after the request is issued. *)
Definition finishSubmit (r : fetch_result) (s : Session) : Session :=
  let fail msg := setError ("Error submitting request: " ++ msg)%string s in
  setIsLoading false
    match r with
    | FetchThrew msg => fail msg
    | FetchThrewOther => fail "Unknown error occurred"
    | FetchResponse ok status body =>
        if negb ok then fail ("API request failed with status " ++ pretty status)%string
        else
          match body with
          | BodyInvalid msg => fail msg
          | BodyJson success url err =>
              match url with
              | Some u =>
                  if success && str_truthy u
                  then setError EmptyString (setEditedImage (Some u) s)
                  else setError (if opt_str_truthy err then default EmptyString err
                                 else "Failed to edit image - no URL returned") s
              | None =>
                  setError (if opt_str_truthy err then default EmptyString err
                            else "Failed to edit image - no URL returned") s
              end
          end
    end.

(* ------------------------------------------------------------------ *)
(** ** The rest of [POST], lines 89-217 *)

Definition utf16_of_string (s : string) : list Z :=
  map (fun a => Z.of_nat (Ascii.nat_of_ascii a)) (list_ascii_of_string s).

(** The template literal of lines 90-99 around [${prompt.trim()}]. *)
Definition prompt_preamble : string :=
"You are a professional landscape designer. You are given an image of a landscape and a mask indicating specific areas to edit. 

        Your task:
        1. Only edit the areas specified by the mask (white/opaque areas)
        2. Maintain the original landscape's style, lighting, and perspective, and the original house structure and roof, driveway, road, sidewalk, and other structures
        3. Ensure the edited elements blend naturally with the existing landscape

        Edit request: ".

Definition prompt_postamble : string :=
"

        Please seamlessly integrate this edit into the masked areas while preserving the natural look of the landscape.".

Definition enhancedPrompt (trimmed : list Z) : list Z :=
  utf16_of_string prompt_preamble ++ trimmed ++ utf16_of_string prompt_postamble.

(** A value thrown inside the [try]: an [Error] with an optional
    numeric [status] property and its message, or anything else. *)
Inductive thrown :=
| ThrownError (status : option Z) (message : string)
| ThrownOther.

(** One entry of [response.data]. *)
Record api_image := mkApiImage {
  ai_url : option string;
  ai_b64_json : option string
}.

(** What [openai.images.edit] gives: [response.data] (None when it is
    missing) or a thrown value. *)
Inductive images_edit_result :=
| EditData (data : option (list api_image))
| EditThrew (e : thrown).

(** The request body as [request.formData()] parses it, or what it
    throws. *)
Inductive form_input :=
| FormOk (fd : FormFields)
| FormThrew (e : thrown).

Inductive json_body :=
| JSuccess (editedImageUrl : string)
| JError (error : string).

Record response := mkResponse {
  resp_status : Z;
  resp_body : json_body
}.

(** [String.prototype.includes]. *)
Fixpoint str_includes (needle hay : string) : bool :=
  String.prefix needle hay ||
  match hay with
  | EmptyString => false
  | String _ rest => str_includes needle rest
  end.

(** The [catch] block, lines 156-216. *)
Definition map_error (e : thrown) : response :=
  match e with
  | ThrownOther =>
      mkResponse 500 (JError "An unexpected error occurred while editing the image")
  | ThrownError st message =>
      let by_status :=
        match st with
        | Some 400 => Some (mkResponse 400 (JError "Invalid request to OpenAI API. Please check your image format, size, and mask. Make sure both images are the same dimensions and under 4MB."))
        | Some 401 => Some (mkResponse 401 (JError "Invalid OpenAI API key. Please check your configuration."))
        | Some 413 => Some (mkResponse 413 (JError "Files too large. Please reduce image size to under 4MB."))
        | Some 429 => Some (mkResponse 429 (JError "Rate limit exceeded. Please try again later."))
        | Some 500 => Some (mkResponse 500 (JError "OpenAI API server error. Please try again later."))
        | _ => None
        end in
      match by_status with
      | Some r => r
      | None =>
          if str_includes "Connection error" message || str_includes "ECONNRESET" message
          then mkResponse 408 (JError "Connection timeout. This usually happens with large files. Please try with a smaller image (under 2MB recommended).")
          else mkResponse 500 (JError ("Failed to edit image: " ++ message))
      end
  end.

(** Lines 124-154: the first returned image, as a URL or a data URI. *)
Definition normalize_data (data : option (list api_image)) : response :=
  match data with
  | None | Some [] =>
      mkResponse 500 (JError "No edited image returned from OpenAI API")
  | Some (imageData :: _) =>
      if opt_str_truthy (ai_url imageData) then
        mkResponse 200 (JSuccess (default EmptyString (ai_url imageData)))
      else if opt_str_truthy (ai_b64_json imageData) then
        mkResponse 200 (JSuccess ("data:image/png;base64," ++
                                  default EmptyString (ai_b64_json imageData)))
      else mkResponse 500 (JError "Invalid response format from OpenAI API")
  end.

(** [POST], with [openai.images.edit] given as [images_edit] (called
    with the image, the mask and the enhanced prompt; [n: 1] and
    [size: '1024x1024'] are fixed). *)
Definition POST (images_edit : File -> File -> list Z -> images_edit_result)
    (input : form_input) : response :=
  match input with
  | FormThrew e => map_error e
  | FormOk fd =>
      match POST_validate fd with
      | Respond st msg => mkResponse st (JError msg)
      | CallImagesEdit image mask trimmed =>
          match images_edit image mask (enhancedPrompt trimmed) with
          | EditThrew e => map_error e
          | EditData data => normalize_data data
          end
      end
  end.

(** The display canvas shows the cached original pixels tinted where the
    mask is white, as [updateCanvasWithMask] draws them. *)
Definition display_is_overlay (s : Session) : Prop :=
  image s <> None /\
  exists o m, originalImageData s = Some o /\ maskCanvasRef s = Some m /\
    canvasRef s = Some (mkImageData (iwidth o) (iheight o) (imap (tint (idata m)) (idata o))).

(* ------------------------------------------------------------------ *)
(** ** Concrete inputs *)

(** A 1x1 decoded image. *)
Definition img_1x1 : Img := mkImg 1 1 [10; 20; 30; 255].

(** A browser that decodes every file as [img_1x1], encodes every JPEG
    to 1000 bytes and covers every pixel fully by any arc. *)
Definition browser_ex : Browser :=
  mkBrowser (fun _ => Some img_1x1) true (fun _ _ _ _ => Some 1000)
    (fun _ => true) 0 (fun _ _ _ _ _ => 255).

(** A browser that cannot decode anything. *)
Definition browser_undecodable : Browser :=
  mkBrowser (fun _ => None) true (fun _ _ _ _ => Some 1000)
    (fun _ => true) 0 (fun _ _ _ _ _ => 255).

Definition photo_png : File := mkFile "photo.png" "image/png" 2000 0.

(** The first upload into a fresh editor: the canvases are only mounted
    by the render that follows it, so [setupCanvas] finds no canvas. The
    user then draws one dot, clears and generates the mask. *)
Definition first_upload : Session :=
  handleImageUpload browser_ex photo_png initial_session.

Definition draw_clear_generate : list event :=
  [Render; StartDrawing 0 0; StopDrawing; ClearMask; GenerateMask].

(** After the render that mounts the canvases, a second upload sets
    the canvases up for [img_1x1]; the user types the prompt "a" (code
    unit 97) and nothing is drawn. *)
Definition submit_session : Session :=
  run browser_ex [PromptChange [97]]
    (handleImageUpload browser_ex photo_png (run browser_ex [Render] first_upload)).

(** A 2x1 mask: one black pixel, one white pixel. *)
Definition mask_2x1 : ImageData :=
  mkImageData 2 1 [0; 0; 0; 255; 255; 255; 255; 255].

(** A PNG upload of 4,050,000 bytes: above 4,000,000, below 4000 KiB. *)
Definition big_png : File := mkFile "big.png" "image/png" 4050000 0.

(** A 20 MB PNG upload. *)
Definition huge_png : File := mkFile "huge.png" "image/png" 20000000 0.

(** A zero-byte upload. *)
Definition empty_png : File := mkFile "empty.png" "image/png" 0 0.

(** A browser whose JPEG encoder never gets below 5,000,000 bytes. *)
Definition browser_stubborn : Browser :=
  mkBrowser (fun _ => Some img_1x1) true (fun _ _ _ _ => Some 5000000)
    (fun _ => true) 0 (fun _ _ _ _ _ => 255).

(* ================================================================== *)
(** * Theorems *)

(** ** Mask Exporter *)

Lemma alpha_body_length (mask : list Z) i (alpha : list Z) :
  length (alpha_body mask i alpha) = length alpha.
Proof. unfold alpha_body. by rewrite !length_insert. Qed.

Lemma alpha_loop_length fuel i (mask alpha : list Z) :
  length (alpha_loop fuel i mask alpha) = length alpha.
Proof.
  revert i alpha. induction fuel as [|fuel IH]; intros i alpha; simpl; [done|].
  case_decide; [|done]. by rewrite IH, alpha_body_length.
Qed.

Lemma alpha_body_lookup_ne (mask : list Z) i (alpha : list Z) j :
  (j < i)%nat -> alpha_body mask i alpha !! j = alpha !! j.
Proof.
  intros Hj. unfold alpha_body.
  rewrite !list_lookup_insert_ne by lia. done.
Qed.

Lemma alpha_body_lookup_eq (mask : list Z) i (alpha : list Z) k :
  (k < 4)%nat -> (i + 3 < length alpha)%nat ->
  alpha_body mask i alpha !! (i + k)%nat = Some (alpha_value (mask !!! i)).
Proof.
  intros Hk Hlen. unfold alpha_body.
  rewrite !list_lookup_insert.
  rewrite !length_insert.
  destruct (decide (k = 0 \/ k = 1 \/ k = 2 \/ k = 3)%nat) as [Hc|]; [|lia].
  destruct Hc as [ -> | [ -> | [ -> | -> ] ] ];
    repeat (case_decide; [done|]); exfalso;
    repeat match goal with
           | H : ~ (_ /\ _) |- _ => apply H; split; lia
           end.
Qed.

(** Indices below the loop counter are never written again. *)
Lemma alpha_loop_frame fuel i (mask alpha : list Z) j :
  (j < i)%nat -> alpha_loop fuel i mask alpha !! j = alpha !! j.
Proof.
  revert i alpha. induction fuel as [|fuel IH]; intros i alpha Hj; simpl; [done|].
  case_decide; [|done].
  rewrite IH by lia. by apply alpha_body_lookup_ne.
Qed.

Lemma alpha_loop_spec (mask : list Z) (n : nat) :
  length mask = (4 * n)%nat ->
  forall fuel q (alpha : list Z),
  length alpha = length mask -> (n <= q + fuel)%nat ->
  forall p k, (q <= p < n)%nat -> (k < 4)%nat ->
  alpha_loop fuel (4 * q) mask alpha !! (4 * p + k)%nat =
    Some (alpha_value (mask !!! (4 * p)%nat)).
Proof.
  intros Hn fuel. induction fuel as [|fuel IH]; intros q alpha Hlen Hfuel p k Hp Hk.
  - lia.
  - cbn [alpha_loop]. rewrite decide_True by lia.
    replace (4 * q + 4)%nat with (4 * S q)%nat by lia.
    destruct (decide (p = q)) as [->|Hne].
    + rewrite alpha_loop_frame by lia.
      apply alpha_body_lookup_eq; lia.
    + apply IH; [rewrite alpha_body_length; lia | lia | lia | done].
Qed.

Lemma generateMaskImage_data_lookup (m : ImageData) p k :
  length (idata m) = (4 * iwidth m * iheight m)%nat ->
  (p < iwidth m * iheight m)%nat -> (k < 4)%nat ->
  idata (generateMaskImage_data m) !! (4 * p + k)%nat =
    Some (alpha_value (idata m !!! (4 * p)%nat)).
Proof.
  intros Hwf Hp Hk. unfold generateMaskImage_data. cbn [idata].
  apply (alpha_loop_spec (idata m) (iwidth m * iheight m) ltac:(lia) _ 0);
    try lia.
  unfold createImageData. cbn [idata]. rewrite length_replicate. lia.
Qed.

Lemma generateMaskImage_data_length (m : ImageData) :
  length (idata m) = (4 * iwidth m * iheight m)%nat ->
  length (idata (generateMaskImage_data m)) = length (idata m).
Proof.
  intros Hwf. unfold generateMaskImage_data. cbn [idata].
  rewrite alpha_loop_length. unfold createImageData. cbn [idata].
  rewrite length_replicate. lia.
Qed.

(** C2. For every pixel [p] of the MaskBuffer, the AlphaMask pixel is
    (255,255,255,255) when the mask's red channel is above 128 and
    (0,0,0,0) otherwise; so its alpha is 255 exactly when the red
    channel is above 128. The AlphaMask has the MaskBuffer's size. *)
Theorem generateMaskImage_threshold (m : ImageData) :
  length (idata m) = (4 * iwidth m * iheight m)%nat ->
  let a := generateMaskImage_data m in
  iwidth a = iwidth m /\ iheight a = iheight m /\
  length (idata a) = length (idata m) /\
  forall p, (p < iwidth m * iheight m)%nat ->
    let red := idata m !!! (4 * p)%nat in
    pixel (idata a) p =
      (if bool_decide (128 < red) then (255, 255, 255, 255) else (0, 0, 0, 0)) /\
    (let '(_, _, _, alpha) := pixel (idata a) p in alpha = 255 <-> 128 < red).
Proof.
  intros Hwf a. split; [done|]. split; [done|].
  split; [by apply generateMaskImage_data_length|].
  intros p Hp red.
  assert (Hch : forall k, (k < 4)%nat ->
            idata a !!! (4 * p + k)%nat = alpha_value red).
  { intros k Hk. apply list_lookup_total_correct.
    by apply generateMaskImage_data_lookup. }
  unfold pixel.
  rewrite <- (Nat.add_0_r (4 * p)) at 1.
  rewrite !Hch by lia.
  unfold alpha_value. case_bool_decide as Hred; split; try done.
Qed.

Lemma generateMaskImage_threshold_witness :
  length (idata mask_2x1) = (4 * iwidth mask_2x1 * iheight mask_2x1)%nat /\
  (let a := generateMaskImage_data mask_2x1 in
   iwidth a = iwidth mask_2x1 /\ iheight a = iheight mask_2x1 /\
   length (idata a) = length (idata mask_2x1) /\
   forall p, (p < iwidth mask_2x1 * iheight mask_2x1)%nat ->
     let red := idata mask_2x1 !!! (4 * p)%nat in
     pixel (idata a) p =
       (if bool_decide (128 < red) then (255, 255, 255, 255) else (0, 0, 0, 0)) /\
     (let '(_, _, _, alpha) := pixel (idata a) p in alpha = 255 <-> 128 < red)).
Proof.
  split; [reflexivity|].
  apply (generateMaskImage_threshold mask_2x1). reflexivity.
Defined.

(** ** Filled canvases *)

Lemma length_mjoin_replicate (n : nat) (l : list Z) :
  length (mjoin (replicate n l)) = (n * length l)%nat.
Proof.
  induction n as [|n IH]; [done|].
  change (mjoin (replicate (S n) l)) with (l ++ mjoin (replicate n l)).
  rewrite length_app, IH. lia.
Qed.

Lemma lookup_mjoin_replicate (n : nat) (l : list Z) p k :
  (p < n)%nat -> (k < length l)%nat ->
  mjoin (replicate n l) !! (length l * p + k)%nat = l !! k.
Proof.
  revert p. induction n as [|n IH]; intros p Hp Hk; [lia|].
  change (mjoin (replicate (S n) l)) with (l ++ mjoin (replicate n l)).
  destruct p as [|p].
  - rewrite lookup_app_l by lia. f_equal. lia.
  - rewrite lookup_app_r by lia.
    replace (length l * S p + k - length l)%nat with (length l * p + k)%nat by lia.
    apply IH; lia.
Qed.

Lemma fill_all_length r g b (d : ImageData) :
  length (idata (fill_all r g b d)) = (4 * iwidth (fill_all r g b d) * iheight (fill_all r g b d))%nat.
Proof. unfold fill_all. cbn [idata iwidth iheight]. rewrite length_mjoin_replicate. simpl. lia. Qed.

Lemma fill_all_lookup r g b (d : ImageData) p k :
  (p < iwidth d * iheight d)%nat -> (k < 4)%nat ->
  idata (fill_all r g b d) !! (4 * p + k)%nat = [r; g; b; 255] !! k.
Proof.
  intros Hp Hk. unfold fill_all. cbn [idata].
  apply (lookup_mjoin_replicate _ [r; g; b; 255]); simpl; lia.
Qed.

(** Every byte of the alpha mask of a black canvas is 0. *)
Lemma generateMaskImage_data_black (d : ImageData) :
  Forall (fun v => v = 0) (idata (generateMaskImage_data (fill_black d))).
Proof.
  set (fb := fill_black d).
  assert (Hwf : length (idata fb) = (4 * iwidth fb * iheight fb)%nat)
    by apply fill_all_length.
  apply Forall_lookup. intros j x Hj.
  assert (Hlt : (j < 4 * iwidth fb * iheight fb)%nat).
  { apply lookup_lt_Some in Hj.
    rewrite generateMaskImage_data_length in Hj by done. lia. }
  rewrite (Nat.div_mod_eq j 4) in Hj.
  rewrite generateMaskImage_data_lookup in Hj;
    [| done | apply Nat.Div0.div_lt_upper_bound; lia | apply Nat.mod_upper_bound; lia].
  assert (Hred : idata fb !!! (4 * (j / 4))%nat = 0).
  { apply list_lookup_total_correct.
    rewrite <- (Nat.add_0_r (4 * (j / 4))).
    apply fill_all_lookup; [| lia].
    change (iwidth d * iheight d)%nat with (iwidth fb * iheight fb)%nat.
    apply Nat.Div0.div_lt_upper_bound; lia. }
  rewrite Hred in Hj. by injection Hj as <-.
Qed.

(** What [clearMask] is written to do: once the canvas setup has cached
    the original pixels and both canvases are mounted, [clearMask()]
    followed by [generateMaskImage()] yields an AlphaMask of the
    MaskBuffer's size whose bytes are all 0. *)
Theorem clearMask_generateMaskImage_transparent (B : Browser) (s : Session)
    (o c m : ImageData) :
  originalImageData s = Some o -> canvasRef s = Some c ->
  maskCanvasRef s = Some m -> ctx2d_ok B = true ->
  exists a, maskImage (generateMaskImage B (clearMask B s)) = Some a /\
    iwidth a = iwidth m /\ iheight a = iheight m /\
    length (idata a) = (4 * iwidth m * iheight m)%nat /\
    Forall (fun v => v = 0) (idata a).
Proof.
  intros Ho Hc Hm Hctx.
  unfold clearMask. rewrite Ho, Hc, Hm, Hctx.
  unfold generateMaskImage. cbn [maskCanvasRef set_canvas set_maskCanvas].
  rewrite Hctx. cbn [maskImage setError setMaskImage].
  eexists. split; [reflexivity|].
  split; [done|]. split; [done|]. split.
  - rewrite generateMaskImage_data_length by apply fill_all_length.
    apply fill_all_length.
  - apply generateMaskImage_data_black.
Qed.

(** A dot with full coverage of pixel (0, 0), drawn on a freshly
    mounted canvas, exports as an opaque white pixel 0. *)
Lemma generateMaskImage_after_dot (cov : nat -> nat -> Z) (w h : nat) :
  (0 < w)%nat -> (0 < h)%nat -> cov 0%nat 0%nat = 255 ->
  pixel (idata (generateMaskImage_data (fill_circle cov (canvas_resize w h)))) 0
    = (255, 255, 255, 255).
Proof.
  intros Hw Hh Hcov.
  set (m := fill_circle cov (canvas_resize w h)).
  assert (Hlen : length (idata m) = (4 * iwidth m * iheight m)%nat).
  { unfold m, fill_circle. cbn [idata iwidth iheight].
    rewrite length_imap. unfold canvas_resize, createImageData. cbn [idata].
    by rewrite length_replicate. }
  assert (Hred : idata m !!! 0%nat = 255).
  { apply list_lookup_total_correct. unfold m, fill_circle. cbn [idata].
    rewrite list_lookup_imap. unfold canvas_resize, createImageData. cbn [idata].
    rewrite lookup_replicate_2 by lia. cbn [fmap option_fmap option_map].
    rewrite !Nat.Div0.div_0_l, !Nat.Div0.mod_0_l, Hcov. reflexivity. }
  assert (Hch : forall k, (k < 4)%nat ->
            idata (generateMaskImage_data m) !!! (4 * 0 + k)%nat = 255).
  { intros k Hk. apply list_lookup_total_correct.
    rewrite generateMaskImage_data_lookup; [| done | | done].
    - rewrite Nat.mul_0_r, Hred. reflexivity.
    - unfold m, fill_circle, canvas_resize, createImageData.
      cbn [iwidth iheight]. lia. }
  unfold pixel.
  rewrite <- (Nat.add_0_r (4 * 0)) at 1.
  rewrite !Hch by lia. reflexivity.
Qed.

(** C9 (code_bug). The first upload of a fresh editor runs
    [setupCanvas] before React has mounted the canvases (they are only
    rendered once [image] is set), so no original pixels are cached;
    after the render the user can paint on the mounted 300x150 mask,
    and [clearMask] then returns at once at its [originalImageData]
    guard: a dot drawn, [clearMask] and [generateMaskImage] give an
    AlphaMask whose first pixel is opaque white, not transparent. *)
Theorem clearMask_after_first_upload_keeps_stroke :
  image first_upload = Some img_1x1 /\
  originalImageData (run browser_ex [Render] first_upload) = None /\
  maskCanvasRef (run browser_ex [Render] first_upload) = Some (canvas_resize 300 150) /\
  exists a,
    maskImage (run browser_ex draw_clear_generate first_upload) = Some a /\
    pixel (idata a) 0 = (255, 255, 255, 255).
Proof.
  split; [reflexivity|]. split; [reflexivity|]. split; [reflexivity|].
  eexists. split; [reflexivity|].
  apply generateMaskImage_after_dot; [lia | lia | reflexivity].
Qed.

(** ** Edit request *)

(** C1 (code_bug). The [mask] field of the submitted request is the
    mask canvas itself (black/white, opaque everywhere), not the
    AlphaMask of the Mask Exporter: for a 1x1 upload with nothing drawn,
    the submitted mask pixel is (0,0,0,255) while the AlphaMask pixel is
    (0,0,0,0). *)
Theorem handleSubmit_sends_mask_canvas :
  match snd (handleSubmit submit_session) with
  | Some req =>
      Some (req_mask req) = maskCanvasRef submit_session /\
      idata (req_mask req) = [0; 0; 0; 255] /\
      idata (generateMaskImage_data (req_mask req)) = [0; 0; 0; 0]
  | None => False
  end.
Proof. vm_compute. repeat split. Qed.

Lemma clearMask_generateMaskImage_transparent_witness :
  originalImageData submit_session = Some (mkImageData 1 1 [10; 20; 30; 255]) /\
  canvasRef submit_session = Some (mkImageData 1 1 [10; 20; 30; 255]) /\
  maskCanvasRef submit_session = Some (mkImageData 1 1 [0; 0; 0; 255]) /\
  ctx2d_ok browser_ex = true /\
  exists a, maskImage (generateMaskImage browser_ex (clearMask browser_ex submit_session))
              = Some a /\
    iwidth a = 1%nat /\ iheight a = 1%nat /\ length (idata a) = (4 * 1 * 1)%nat /\
    Forall (fun v => v = 0) (idata a).
Proof.
  split; [vm_compute; reflexivity|]. split; [vm_compute; reflexivity|].
  split; [vm_compute; reflexivity|]. split; [reflexivity|].
  apply (clearMask_generateMaskImage_transparent browser_ex submit_session
           (mkImageData 1 1 [10; 20; 30; 255]) (mkImageData 1 1 [10; 20; 30; 255])
           (mkImageData 1 1 [0; 0; 0; 255]));
    vm_compute; reflexivity.
Defined.

(** ** MaskBuffer dimensions *)

Lemma updateCanvasWithMask_fields B s :
  image (updateCanvasWithMask B s) = image s /\
  maskCanvasRef (updateCanvasWithMask B s) = maskCanvasRef s.
Proof.
  unfold updateCanvasWithMask.
  destruct (canvasRef s) eqn:?, (maskCanvasRef s) eqn:?, (originalImageData s) eqn:?;
    try done.
  all: destruct (ctx2d_ok B); simpl; auto.
Qed.

Lemma handleSubmit_fields s :
  image (fst (handleSubmit s)) = image s /\
  maskCanvasRef (fst (handleSubmit s)) = maskCanvasRef s.
Proof.
  unfold handleSubmit.
  repeat case_match; simplify_eq/=; auto.
Qed.

Lemma drawMask_mask_matches B img x y s :
  mask_matches img s -> mask_matches img (drawMask B x y s).
Proof.
  intros [Himg [m [Hm [Hw Hh]]]].
  unfold drawMask. rewrite Hm.
  destruct (ctx2d_ok B); [|split; eauto].
  split.
  - rewrite (proj1 (updateCanvasWithMask_fields B _)). done.
  - rewrite (proj2 (updateCanvasWithMask_fields B _)).
    eexists; split; [reflexivity|]. done.
Qed.

Lemma step_mask_matches B img e s :
  mask_matches img s -> mask_matches img (step B e s).
Proof.
  intros H. pose proof H as [Himg [m [Hm [Hw Hh]]]].
  destruct e; cbn [step].
  - (* StartDrawing *)
    apply drawMask_mask_matches.
    split; [done|]. eauto.
  - (* ContinueDrawing *)
    destruct (isDrawing s); [by apply drawMask_mask_matches | done].
  - split; [done|]. eauto.
  - (* ClearMask *)
    unfold clearMask.
    destruct (originalImageData s); [|split; eauto].
    destruct (canvasRef s); [|split; eauto]. rewrite Hm.
    destruct (ctx2d_ok B); [|split; eauto].
    split; [done|]. eexists; split; [reflexivity|]. done.
  - (* GenerateMask *)
    unfold generateMaskImage. rewrite Hm.
    destruct (ctx2d_ok B); split; eauto.
  - (* Submit *)
    destruct (handleSubmit_fields s) as [Hi Hmk].
    unfold mask_matches. rewrite Hi, Hmk. split; eauto.
  - split; [done|]. eauto.
  - split; [done|]. eauto.
  - (* Render *)
    unfold render. rewrite Himg. cbn. rewrite Hm.
    split; [done|]. eauto.
Qed.

Lemma run_mask_matches B img es s :
  mask_matches img s -> mask_matches img (run B es s).
Proof.
  revert s. induction es as [|e es IH]; intros s H; [done|].
  cbn [run]. apply IH. by apply step_mask_matches.
Qed.

(** C7. After an upload whose canvas setup completes (both canvases
    mounted, a 2D context, the file read and decoded as [img]), the
    MaskBuffer has the width and height of [img], and this still holds
    after any sequence of later events (drawing, clearing, generating,
    submitting, prompt and brush changes, renders). *)
Theorem upload_mask_matches_source (B : Browser) (f cf : File) (img : Img)
    (s : Session) (es : list event) :
  canvasRef s <> None -> maskCanvasRef s <> None -> ctx2d_ok B = true ->
  compressImage B f 4000 = Resolved cf -> read_ok B cf = true ->
  decode B cf = Some img ->
  mask_matches img (run B es (handleImageUpload B f s)).
Proof.
  intros Hc Hm Hctx Hcomp Hread Hdec.
  apply run_mask_matches.
  unfold handleImageUpload. rewrite Hcomp. cbn zeta. rewrite Hread, Hdec.
  unfold setupCanvas. cbn [canvasRef maskCanvasRef setImage setOriginalFile
    setMaskImage setEditedImage setError].
  destruct (canvasRef s) as [c|]; [|congruence].
  destruct (maskCanvasRef s) as [m|]; [|congruence].
  rewrite Hctx. split; [done|].
  eexists; split; [reflexivity|]. done.
Qed.

Lemma upload_mask_matches_source_witness :
  canvasRef (run browser_ex [Render] first_upload) <> None /\
  maskCanvasRef (run browser_ex [Render] first_upload) <> None /\
  ctx2d_ok browser_ex = true /\
  compressImage browser_ex photo_png 4000 = Resolved photo_png /\
  read_ok browser_ex photo_png = true /\
  decode browser_ex photo_png = Some img_1x1 /\
  mask_matches img_1x1
    (run browser_ex [StartDrawing 0 0; ClearMask; Render]
       (handleImageUpload browser_ex photo_png (run browser_ex [Render] first_upload))).
Proof.
  split; [discriminate|]. split; [discriminate|].
  split; [reflexivity|]. split; [reflexivity|]. split; [reflexivity|].
  split; [reflexivity|].
  apply (upload_mask_matches_source browser_ex photo_png photo_png img_1x1);
    [discriminate | discriminate | reflexivity.. ].
Defined.

(** ** Painting never erases *)

Lemma blend_white_ge a v :
  0 <= a <= 255 -> 0 <= v <= 255 -> v <= blend_white a v.
Proof.
  intros Ha Hv. unfold blend_white.
  apply Z.div_le_lower_bound; [lia|]. nia.
Qed.

Lemma filter_length_mono {A} (f g : A -> bool) (l : list A) :
  (forall x, f x = true -> g x = true) ->
  (length (List.filter f l) <= length (List.filter g l))%nat.
Proof.
  intros Hfg. induction l as [|x l IH]; [done|]. cbn [List.filter].
  destruct (f x) eqn:Ef.
  - rewrite (Hfg x Ef). simpl. lia.
  - destruct (g x); simpl; lia.
Qed.

Lemma fill_circle_ge (cov : nat -> nat -> Z) (m : ImageData) j :
  (forall px py, 0 <= cov px py <= 255) ->
  Forall (fun v => 0 <= v <= 255) (idata m) ->
  idata m !!! j <= idata (fill_circle cov m) !!! j.
Proof.
  intros Hcov Hm. unfold fill_circle. cbn [idata].
  rewrite !list_lookup_total_alt, list_lookup_imap.
  destruct (idata m !! j) as [v|] eqn:Hj; cbn; [|lia].
  apply blend_white_ge; [apply Hcov|].
  by apply (Forall_lookup_1 _ _ _ _ Hm Hj).
Qed.

(** C8. Drawing a stroke point paints the MaskBuffer with white only:
    every channel of every pixel stays or grows, so a white pixel (red
    above 128) stays white and the white-pixel count does not decrease;
    the MaskBuffer keeps its size. This holds for any point, inside the
    bounds or not, and any coverage the rasterizer computes. *)
Theorem drawMask_never_erases (B : Browser) (x y : Q) (s : Session) (m : ImageData) :
  maskCanvasRef s = Some m ->
  Forall (fun v => 0 <= v <= 255) (idata m) ->
  (forall cx cy r px py, 0 <= arc_coverage B cx cy r px py <= 255) ->
  exists m', maskCanvasRef (drawMask B x y s) = Some m' /\
    iwidth m' = iwidth m /\ iheight m' = iheight m /\
    (forall p, is_white (idata m) p = true -> is_white (idata m') p = true) /\
    (white_count m <= white_count m')%nat.
Proof.
  intros Hm Hrange Hcov.
  unfold drawMask. rewrite Hm.
  destruct (ctx2d_ok B).
  - set (m' := fill_circle (arc_coverage B x y (inject_Z (brushSize s) / 2)) m).
    exists m'.
    rewrite (proj2 (updateCanvasWithMask_fields B _)).
    assert (Hw : forall p, is_white (idata m) p = true -> is_white (idata m') p = true).
    { intros p. unfold is_white. rewrite !bool_decide_eq_true.
      pose proof (fill_circle_ge (arc_coverage B x y (inject_Z (brushSize s) / 2))
                    m (4 * p)%nat (Hcov _ _ _) Hrange). unfold m'. lia. }
    split; [done|]. split; [done|]. split; [done|]. split; [exact Hw|].
    unfold white_count. apply filter_length_mono. exact Hw.
  - exists m. repeat split; auto.
Qed.

Lemma drawMask_never_erases_witness :
  maskCanvasRef submit_session = Some (mkImageData 1 1 [0; 0; 0; 255]) /\
  Forall (fun v => 0 <= v <= 255) [0; 0; 0; 255]%Z /\
  (forall cx cy r px py, 0 <= arc_coverage browser_ex cx cy r px py <= 255) /\
  exists m', maskCanvasRef (drawMask browser_ex 0 0 submit_session) = Some m' /\
    iwidth m' = 1%nat /\ iheight m' = 1%nat /\
    (forall p, is_white [0; 0; 0; 255]%Z p = true -> is_white (idata m') p = true) /\
    (white_count (mkImageData 1 1 [0; 0; 0; 255]%Z) <= white_count m')%nat.
Proof.
  split; [vm_compute; reflexivity|].
  split; [repeat constructor; lia|].
  split; [intros; cbn; lia|].
  apply (drawMask_never_erases browser_ex 0 0 submit_session
           (mkImageData 1 1 [0; 0; 0; 255]));
    [vm_compute; reflexivity | repeat constructor; lia | intros; cbn; lia].
Defined.

(** ** Empty prompts *)

(** C6. A prompt that is empty or whitespace only (empty after
    [trim()]) is refused on both sides: the client sets the validation
    error and issues no request; the route handler answers 400 without
    calling [openai.images.edit], whatever the other fields are. *)
Theorem empty_prompt_refused (s : Session) (fd : FormFields) :
  js_trim (prompt s) = [] ->
  (forall p, ff_prompt fd = Some p -> js_trim p = []) ->
  snd (handleSubmit s) = None /\
  error (fst (handleSubmit s)) = "Please upload an image and enter a prompt"%string /\
  exists msg, POST_validate fd = Respond 400 msg.
Proof.
  intros Hs Hfd. split; [|split].
  - unfold handleSubmit. destruct (originalFile s); [|done]. by rewrite Hs.
  - unfold handleSubmit. destruct (originalFile s); [|done]. by rewrite Hs.
  - unfold POST_validate.
    destruct (ff_image fd), (ff_mask fd), (ff_prompt fd) as [p|] eqn:Hp; eauto.
    rewrite (Hfd p eq_refl).
    repeat case_match; eauto; discriminate.
Qed.

Lemma empty_prompt_refused_witness :
  js_trim (prompt (setPrompt [32; 9] submit_session)) = [] /\
  (forall p, ff_prompt (mkFormFields (Some photo_png) (Some photo_png) (Some [32])) = Some p ->
     js_trim p = []) /\
  snd (handleSubmit (setPrompt [32; 9] submit_session)) = None /\
  error (fst (handleSubmit (setPrompt [32; 9] submit_session))) =
    "Please upload an image and enter a prompt"%string /\
  exists msg, POST_validate (mkFormFields (Some photo_png) (Some photo_png) (Some [32]))
                = Respond 400 msg.
Proof.
  split; [reflexivity|].
  split; [intros p Hp; injection Hp as <-; reflexivity|].
  apply empty_prompt_refused; [reflexivity|].
  intros p Hp; injection Hp as <-; reflexivity.
Defined.

(** ** Compressor *)

(** C3 (amended). The Compressor's byte budget is [4000 * 1024]
    = 4,096,000 bytes: a file of at most that size is returned
    unchanged, a larger one goes to decoding and re-encoding. *)
Theorem compressImage_budget (B : Browser) (f : File) :
  (fsize f <= 4096000 -> compressImage B f 4000 = Resolved f) /\
  (4096000 < fsize f -> compressImage B f 4000 = decode_and_compress B f 4000).
Proof.
  unfold compressImage. split; intros H.
  - replace (fsize f <=? 4000 * 1024) with true by (symmetry; apply Z.leb_le; lia).
    reflexivity.
  - replace (fsize f <=? 4000 * 1024) with false by (symmetry; apply Z.leb_gt; lia).
    reflexivity.
Qed.

Lemma compressImage_budget_witness :
  (fsize empty_png <= 4096000 /\ compressImage browser_ex empty_png 4000 = Resolved empty_png) /\
  (4096000 < fsize huge_png /\
   compressImage browser_ex huge_png 4000 = decode_and_compress browser_ex huge_png 4000).
Proof.
  split.
  - split; [vm_compute; discriminate|].
    apply (proj1 (compressImage_budget browser_ex empty_png)). vm_compute. discriminate.
  - split; [reflexivity|].
    apply (proj2 (compressImage_budget browser_ex huge_png)). reflexivity.
Defined.

(** C3 counterexample. A 4,050,000-byte PNG exceeds 4,000,000 bytes but
    is passed through unchanged, although a browser that decodes it
    would re-encode it to a 1000-byte JPEG. *)
Lemma compressImage_budget_counterexample :
  4000000 < fsize big_png /\
  compressImage browser_ex big_png 4000 = Resolved big_png /\
  decode_and_compress browser_ex big_png 4000 =
    Resolved (mkFile "big.png" "image/jpeg" 1000 0).
Proof. split; [reflexivity|]. split; vm_compute; reflexivity. Qed.

Lemma cws_step_retry B f img maxSizeKB q d q' d' :
  cws_step B f img maxSizeKB q d = CwsRetry q' d' ->
  Qgtb q (1 # 10) = true /\ 400 < d /\
  q' = Qmax (1 # 10) (q - (2 # 10))%Q /\ d' = Z.max 400 (d - 200).
Proof.
  unfold cws_step.
  destruct (resize _ _ d) as [w h].
  destruct (ctx2d_ok B); [|discriminate].
  destruct (to_jpeg_blob _ _ _ _ _) as [sz|]; [|discriminate].
  destruct (_ >? _); [|discriminate].
  destruct (Qgtb q (1 # 10)) eqn:Hq, (d >? 400) eqn:Hd; cbn; try discriminate.
  intros H; injection H as <- <-.
  apply Z.gtb_lt in Hd. repeat split; auto; lia.
Qed.

Lemma cws_step_floor B f img maxSizeKB q d :
  (Qgtb q (1 # 10) && (d >? 400)) = false ->
  exists g, cws_step B f img maxSizeKB q d = CwsDone g.
Proof.
  intros Hfl. unfold cws_step.
  destruct (resize _ _ d) as [w h].
  destruct (ctx2d_ok B); [|eauto].
  destruct (to_jpeg_blob _ _ _ _ _) as [sz|]; [|eauto].
  cbn zeta. repeat case_match; eauto; congruence.
Qed.

Lemma compressWithSettings_resolves B f img maxSizeKB fuel q d :
  (Z.to_nat d < fuel)%nat ->
  exists g, compressWithSettings B f img maxSizeKB fuel q d = Resolved g.
Proof.
  revert q d. induction fuel as [|fuel IH]; intros q d Hfuel; [lia|].
  cbn [compressWithSettings].
  destruct (cws_step B f img maxSizeKB q d) as [g|q' d'] eqn:Hs; [eauto|].
  apply cws_step_retry in Hs as (_ & Hd & _ & ->).
  apply IH. lia.
Qed.

(** C4. The retry chain of [compressWithSettings] ends: a call retries
    only while quality > 0.1 and dimension > 400, with quality
    [max 0.1 (q - 0.2)] and dimension [max 400 (d - 200)]; the retry
    relation is well founded; once a floor is reached the call resolves
    with its (possibly still oversized) result; a chain started at
    dimension [d] resolves within [d + 1] calls, and the Compressor's
    promise is always resolved, never rejected or left pending. *)
Theorem compressWithSettings_terminates (B : Browser) (f : File) (img : Img)
    (maxSizeKB : Z) :
  (forall q d q' d', cws_step B f img maxSizeKB q d = CwsRetry q' d' ->
     Qgtb q (1 # 10) = true /\ 400 < d /\
     q' = Qmax (1 # 10) (q - (2 # 10))%Q /\ d' = Z.max 400 (d - 200)) /\
  well_founded (fun (x y : Q * Z) =>
     cws_step B f img maxSizeKB (fst y) (snd y) = CwsRetry (fst x) (snd x)) /\
  (forall q d, (Qgtb q (1 # 10) && (d >? 400)) = false ->
     exists g, cws_step B f img maxSizeKB q d = CwsDone g) /\
  (forall fuel q d, (Z.to_nat d < fuel)%nat ->
     exists g, compressWithSettings B f img maxSizeKB fuel q d = Resolved g) /\
  (exists g, compressImage B f maxSizeKB = Resolved g).
Proof.
  split; [apply cws_step_retry|].
  split.
  { apply (wf_incl _ _ (ltof (Q * Z) (fun x => Z.to_nat (snd x)))).
    - intros [q' d'] [q d] H. cbn in H.
      apply cws_step_retry in H as (_ & Hd & _ & ->).
      unfold ltof. cbn. lia.
    - apply well_founded_ltof. }
  split; [apply cws_step_floor|].
  split; [apply compressWithSettings_resolves|].
  unfold compressImage. destruct (_ <=? _); [eauto|].
  unfold decode_and_compress. destruct (decode B f) as [i|]; [|eauto].
  apply compressWithSettings_resolves.
  destruct (_ >? _); lia.
Qed.

Lemma compressWithSettings_terminates_witness :
  (exists g, compressImage browser_stubborn huge_png 4000 = Resolved g) /\
  compressImage browser_stubborn huge_png 4000 =
    Resolved (mkFile "huge.png" "image/jpeg" 5000000 0).
Proof.
  split.
  - destruct (compressWithSettings_terminates browser_stubborn huge_png img_1x1 4000)
      as (_ & _ & _ & _ & H). exact H.
  - vm_compute. reflexivity.
Defined.

(** C5 counterexample. The Compressor does not fail on a zero-byte or
    an undecodable file: it resolves with the file itself. *)
Lemma compressImage_no_failure_counterexample :
  compressImage browser_undecodable empty_png 4000 = Resolved empty_png /\
  compressImage browser_undecodable huge_png 4000 = Resolved huge_png.
Proof. split; vm_compute; reflexivity. Qed.

(** C5 (amended). The Compressor never fails: a file the browser cannot
    decode (a zero-byte file among them) is resolved unchanged. The
    upload handler then reports a load (or read) error and neither sets
    the image nor touches the canvases; the file is still recorded as
    [originalFile]. *)
Theorem undecodable_upload_reports_error (B : Browser) (f : File) (s : Session) :
  decode B f = None ->
  compressImage B f 4000 = Resolved f /\
  (let s' := handleImageUpload B f s in
   (error s' = "Failed to load image. Please try another file."%string \/
    error s' = "Failed to read file. Please try again."%string) /\
   image s' = image s /\ canvasRef s' = canvasRef s /\
   maskCanvasRef s' = maskCanvasRef s /\
   originalImageData s' = originalImageData s /\
   originalFile s' = Some f).
Proof.
  intros Hdec.
  assert (Hc : compressImage B f 4000 = Resolved f).
  { unfold compressImage, decode_and_compress. rewrite Hdec.
    by destruct (_ <=? _). }
  split; [exact Hc|].
  unfold handleImageUpload. rewrite Hc. cbn zeta.
  destruct (read_ok B f); [rewrite Hdec|]; cbn; auto 8.
Qed.

Lemma undecodable_upload_reports_error_witness :
  decode browser_undecodable empty_png = None /\
  compressImage browser_undecodable empty_png 4000 = Resolved empty_png /\
  (let s' := handleImageUpload browser_undecodable empty_png submit_session in
   (error s' = "Failed to load image. Please try another file."%string \/
    error s' = "Failed to read file. Please try again."%string) /\
   image s' = image submit_session /\ canvasRef s' = canvasRef submit_session /\
   maskCanvasRef s' = maskCanvasRef submit_session /\
   originalImageData s' = originalImageData submit_session /\
   originalFile s' = Some empty_png).
Proof.
  split; [reflexivity|].
  apply undecodable_upload_reports_error. reflexivity.
Defined.

Lemma compressWithSettings_jpeg B f img maxSizeKB fuel q d g :
  ctx2d_ok B = true ->
  (forall f' w h q', to_jpeg_blob B f' w h q' <> None) ->
  compressWithSettings B f img maxSizeKB fuel q d = Resolved g ->
  ftype g = "image/jpeg"%string /\ fname g = fname f.
Proof.
  intros Hctx Hblob. revert q d.
  induction fuel as [|fuel IH]; intros q d H; cbn [compressWithSettings] in H;
    [discriminate|].
  destruct (cws_step B f img maxSizeKB q d) as [g'|q' d'] eqn:Hs; [|eauto].
  injection H as <-. revert Hs. unfold cws_step.
  destruct (resize _ _ d) as [w h]. rewrite Hctx.
  destruct (to_jpeg_blob B f _ _ q) as [sz|] eqn:Hb;
    [|exfalso; eapply Hblob; exact Hb].
  cbn zeta. repeat case_match; intros Hs; try discriminate;
    injection Hs as <-; done.
Qed.

(** C10. When the Compressor re-encodes (the file is over the budget, it
    decodes, there is a 2D context and every [toBlob] call yields a
    blob), the returned file has type [image/jpeg] and the input's name,
    whatever the input's type: a PNG comes back as a JPEG. *)
Theorem compressImage_reencoded_is_jpeg (B : Browser) (f g : File) (img : Img) :
  4000 * 1024 < fsize f -> decode B f = Some img -> ctx2d_ok B = true ->
  (forall f' w h q, to_jpeg_blob B f' w h q <> None) ->
  compressImage B f 4000 = Resolved g ->
  ftype g = "image/jpeg"%string /\ fname g = fname f.
Proof.
  intros Hsz Hdec Hctx Hblob.
  unfold compressImage.
  replace (fsize f <=? 4000 * 1024) with false by (symmetry; apply Z.leb_gt; lia).
  unfold decode_and_compress. rewrite Hdec.
  apply compressWithSettings_jpeg; assumption.
Qed.

Lemma compressImage_reencoded_is_jpeg_witness :
  4000 * 1024 < fsize huge_png /\ decode browser_ex huge_png = Some img_1x1 /\
  ctx2d_ok browser_ex = true /\
  (forall f' w h q, to_jpeg_blob browser_ex f' w h q <> None) /\
  compressImage browser_ex huge_png 4000 = Resolved (mkFile "huge.png" "image/jpeg" 1000 0) /\
  ftype (mkFile "huge.png" "image/jpeg" 1000 0) = "image/jpeg"%string /\
  fname (mkFile "huge.png" "image/jpeg" 1000 0) = fname huge_png.
Proof.
  split; [reflexivity|]. split; [reflexivity|]. split; [reflexivity|].
  split; [intros; discriminate|]. split; [vm_compute; reflexivity|].
  apply (compressImage_reencoded_is_jpeg browser_ex huge_png _ img_1x1);
    [reflexivity | reflexivity | reflexivity | intros; discriminate |
     vm_compute; reflexivity].
Defined.

(* ================================================================== *)
(** * Further properties of the code *)

(** ** The route handler *)

Definition allowed_status (st : Z) : Prop :=
  st = 200 \/ st = 400 \/ st = 401 \/ st = 408 \/ st = 413 \/ st = 429 \/ st = 500.

(** A response is well formed: it is allowed, it is 200 exactly when
    it is a success, and a success carries a non-empty URL. *)
Definition well_formed_response (r : response) : Prop :=
  allowed_status (resp_status r) /\
  (resp_status r = 200 <-> exists u, resp_body r = JSuccess u) /\
  (forall u, resp_body r = JSuccess u -> u <> EmptyString).

Lemma POST_validate_respond_400 fd st msg :
  POST_validate fd = Respond st msg -> st = 400.
Proof.
  unfold POST_validate. repeat case_match; intros Hr; first [discriminate | injection Hr; auto].
Qed.

Lemma error_response_well_formed st msg :
  allowed_status st -> st <> 200 -> well_formed_response (mkResponse st (JError msg)).
Proof.
  intros Ha Hn. unfold well_formed_response; cbn.
  split; [exact Ha|]. split; [split; [done|intros [? ?]; discriminate]|].
  intros ? ?; discriminate.
Qed.

Lemma map_error_well_formed e : well_formed_response (map_error e).
Proof.
  destruct e as [st message|]; cbn; repeat case_match; simplify_eq/=;
    apply error_response_well_formed; unfold allowed_status; lia.
Qed.

Lemma normalize_data_well_formed data : well_formed_response (normalize_data data).
Proof.
  unfold normalize_data.
  destruct data as [[|d rest]|];
    try (apply error_response_well_formed; unfold allowed_status; lia).
  destruct (opt_str_truthy (ai_url d)) eqn:Hu.
  - unfold well_formed_response, allowed_status; cbn.
    split; [lia|]. split; [split; [eauto|done]|].
    intros u Hb. injection Hb as <-.
    destruct (ai_url d) as [[|? ?]|]; cbn in *; discriminate.
  - destruct (opt_str_truthy (ai_b64_json d)).
    + unfold well_formed_response, allowed_status; cbn.
      split; [lia|]. split; [split; [eauto|done]|].
      intros u Hb. injection Hb as <-. discriminate.
    + apply error_response_well_formed; unfold allowed_status; lia.
Qed.

(** Every answer of the route handler has one of the statuses 200, 400,
    401, 408, 413, 429 or 500; it is 200 exactly for a success body, and
    a success body's [editedImageUrl] is never empty, whatever the
    request and whatever the image API returns or throws. *)
Theorem POST_well_formed (images_edit : File -> File -> list Z -> images_edit_result)
    (input : form_input) :
  well_formed_response (POST images_edit input).
Proof.
  unfold POST. destruct input as [fd|e]; [|apply map_error_well_formed].
  destruct (POST_validate fd) as [st msg|image mask trimmed] eqn:Hv.
  - apply POST_validate_respond_400 in Hv as ->.
    apply error_response_well_formed; unfold allowed_status; lia.
  - destruct (images_edit image mask (enhancedPrompt trimmed));
      [apply normalize_data_well_formed | apply map_error_well_formed].
Qed.

(** The image API is reached only with validated input: both files
    present, each at most 4 MiB (4,194,304 bytes) and of an [image/]
    type, and a prompt whose trimmed form is non-empty; the trimmed
    prompt is what goes into the enhanced prompt. *)
Theorem POST_validate_guarantees (fd : FormFields) (image mask : File) (trimmed : list Z) :
  POST_validate fd = CallImagesEdit image mask trimmed ->
  exists p,
    ff_image fd = Some image /\ ff_mask fd = Some mask /\ ff_prompt fd = Some p /\
    fsize image <= 4194304 /\ fsize mask <= 4194304 /\
    isValidImageFile image = true /\ isValidImageFile mask = true /\
    trimmed = js_trim p /\ trimmed <> [].
Proof.
  unfold POST_validate.
  destruct (ff_image fd) as [i|], (ff_mask fd) as [m|], (ff_prompt fd) as [p|];
    try discriminate.
  destruct (negb (js_truthy p)); [discriminate|].
  destruct (fsize i >? 4 * 1024 * 1024) eqn:Hi; [discriminate|].
  destruct (fsize m >? 4 * 1024 * 1024) eqn:Hm; [discriminate|].
  destruct (isValidImageFile i) eqn:Hti; [|discriminate].
  destruct (isValidImageFile m) eqn:Htm; [|discriminate].
  destruct (js_truthy (js_trim p)) eqn:Ht; [|discriminate].
  cbn. intros H; injection H as <- <- <-.
  rewrite Z.gtb_ltb, Z.ltb_ge in Hi, Hm.
  exists p. repeat split; try done; try lia.
  intros E. rewrite E in Ht. discriminate.
Qed.

Lemma POST_validate_guarantees_witness :
  POST_validate (mkFormFields (Some photo_png) (Some photo_png) (Some [32; 97; 32]))
    = CallImagesEdit photo_png photo_png [97] /\
  exists p,
    ff_image (mkFormFields (Some photo_png) (Some photo_png) (Some [32; 97; 32])) = Some photo_png /\
    ff_mask (mkFormFields (Some photo_png) (Some photo_png) (Some [32; 97; 32])) = Some photo_png /\
    ff_prompt (mkFormFields (Some photo_png) (Some photo_png) (Some [32; 97; 32])) = Some p /\
    fsize photo_png <= 4194304 /\ fsize photo_png <= 4194304 /\
    isValidImageFile photo_png = true /\ isValidImageFile photo_png = true /\
    [97] = js_trim p /\ [97] <> [].
Proof.
  split; [vm_compute; reflexivity|].
  apply POST_validate_guarantees. vm_compute. reflexivity.
Defined.

(** An error thrown by the image API call whose [status] is 400, 401,
    413, 429 or 500 is answered with that same status. *)
Theorem map_error_keeps_known_status (fd : FormFields) (image mask : File)
    (trimmed : list Z) (st : Z) (message : string) :
  POST_validate fd = CallImagesEdit image mask trimmed ->
  st = 400 \/ st = 401 \/ st = 413 \/ st = 429 \/ st = 500 ->
  resp_status (POST (fun _ _ _ => EditThrew (ThrownError (Some st) message))
                 (FormOk fd)) = st.
Proof.
  intros Hv Hst. unfold POST. rewrite Hv. cbn.
  destruct Hst as [-> | [-> | [-> | [-> | ->]]]]; reflexivity.
Qed.

Lemma map_error_keeps_known_status_witness :
  let fd := mkFormFields (Some photo_png) (Some photo_png) (Some [97]) in
  POST_validate fd = CallImagesEdit photo_png photo_png [97] /\
  resp_status (POST (fun _ _ _ => EditThrew (ThrownError (Some 429) "slow down"))
                 (FormOk fd)) = 429.
Proof.
  cbv zeta. split; [vm_compute; reflexivity|].
  apply (map_error_keeps_known_status _ photo_png photo_png [97]);
    [vm_compute; reflexivity | lia].
Defined.

Lemma map_error_unknown_status st message :
  st <> Some 400 -> st <> Some 401 -> st <> Some 413 -> st <> Some 429 ->
  st <> Some 500 ->
  map_error (ThrownError st message) =
    if str_includes "Connection error" message || str_includes "ECONNRESET" message
    then mkResponse 408 (JError "Connection timeout. This usually happens with large files. Please try with a smaller image (under 2MB recommended).")
    else mkResponse 500 (JError ("Failed to edit image: " ++ message)).
Proof.
  intros H1 H2 H3 H4 H5. cbn.
  destruct st as [z|]; [|reflexivity].
  repeat case_match; simplify_eq/=; congruence.
Qed.

(** When the image API call throws an error with no recognised status,
    the route answers 408 exactly when the message mentions
    "Connection error" or "ECONNRESET", and 500 otherwise. *)
Theorem POST_connection_errors_408 (fd : FormFields) (image mask : File) (trimmed : list Z)
    (st : option Z) (message : string) :
  POST_validate fd = CallImagesEdit image mask trimmed ->
  st <> Some 400 -> st <> Some 401 -> st <> Some 413 -> st <> Some 429 ->
  st <> Some 500 ->
  let r := POST (fun _ _ _ => EditThrew (ThrownError st message)) (FormOk fd) in
  (resp_status r = 408 <->
     str_includes "Connection error" message = true \/
     str_includes "ECONNRESET" message = true) /\
  (resp_status r = 408 \/ resp_status r = 500).
Proof.
  intros Hv H1 H2 H3 H4 H5 r. unfold r, POST. rewrite Hv.
  rewrite (map_error_unknown_status st message H1 H2 H3 H4 H5).
  destruct (str_includes "Connection error" message) eqn:Hc,
           (str_includes "ECONNRESET" message) eqn:He; cbn;
    intuition congruence.
Qed.

Lemma POST_connection_errors_408_witness :
  let fd := mkFormFields (Some photo_png) (Some photo_png) (Some [97]) in
  POST_validate fd = CallImagesEdit photo_png photo_png [97] /\
  let r := POST (fun _ _ _ => EditThrew (ThrownError None "read ECONNRESET")) (FormOk fd) in
  (resp_status r = 408 <->
     str_includes "Connection error" "read ECONNRESET" = true \/
     str_includes "ECONNRESET" "read ECONNRESET" = true) /\
  (resp_status r = 408 \/ resp_status r = 500).
Proof.
  cbv zeta. split; [vm_compute; reflexivity|].
  apply (POST_connection_errors_408 _ photo_png photo_png [97]);
    [vm_compute; reflexivity|discriminate..].
Defined.

(** When the image API returns data, the route answers 200 with the
    first entry's [url] when that is non-empty, and otherwise with a
    [data:image/png;base64,] URI built from its non-empty [b64_json];
    later entries are ignored. *)
Theorem POST_first_image_url_or_b64 (fd : FormFields) (image mask : File) (trimmed : list Z)
    (d : api_image) (rest : list api_image) :
  POST_validate fd = CallImagesEdit image mask trimmed ->
  let r := POST (fun _ _ _ => EditData (Some (d :: rest))) (FormOk fd) in
  (forall u, ai_url d = Some u -> u <> EmptyString -> r = mkResponse 200 (JSuccess u)) /\
  (forall b, opt_str_truthy (ai_url d) = false -> ai_b64_json d = Some b ->
     b <> EmptyString ->
     r = mkResponse 200 (JSuccess ("data:image/png;base64," ++ b))).
Proof.
  intros Hv r. unfold r, POST. rewrite Hv. cbn. split.
  - intros u -> Hu. destruct u; [congruence|reflexivity].
  - intros b -> -> Hb. destruct b; [congruence|reflexivity].
Qed.

Lemma POST_first_image_url_or_b64_witness :
  let fd := mkFormFields (Some photo_png) (Some photo_png) (Some [97]) in
  let d := mkApiImage (Some "https://x") (Some "AAAA") in
  POST_validate fd = CallImagesEdit photo_png photo_png [97] /\
  let r := POST (fun _ _ _ => EditData (Some (d :: []))) (FormOk fd) in
  (forall u, ai_url d = Some u -> u <> EmptyString -> r = mkResponse 200 (JSuccess u)) /\
  (forall b, opt_str_truthy (ai_url d) = false -> ai_b64_json d = Some b ->
     b <> EmptyString ->
     r = mkResponse 200 (JSuccess ("data:image/png;base64," ++ b))).
Proof.
  cbv zeta. split; [vm_compute; reflexivity|].
  apply (POST_first_image_url_or_b64 _ photo_png photo_png [97]).
  vm_compute; reflexivity.
Defined.

(** ** The client's handling of the answer *)

(** After the request settles, [isLoading] is false and one of two
    things happened: a success response ([ok], [success] true, non-empty
    [editedImageUrl]) stored exactly that URL and cleared the error, or
    the session is unchanged except for a non-empty error message (so a
    previously edited image stays displayed). *)
Theorem finishSubmit_outcome (r : fetch_result) (s : Session) :
  (exists u status err, r = FetchResponse true status (BodyJson true (Some u) err) /\
     u <> EmptyString /\
     finishSubmit r s = setIsLoading false (setError EmptyString (setEditedImage (Some u) s))) \/
  (exists e, e <> EmptyString /\ finishSubmit r s = setIsLoading false (setError e s)).
Proof.
  unfold finishSubmit.
  destruct r as [msg| |ok status body].
  - right. eexists; split; [|reflexivity]; discriminate.
  - right. eexists; split; [|reflexivity]; discriminate.
  - destruct ok; cbn; [|right; eexists; split; [|reflexivity]; discriminate].
    destruct body as [success [u|] err|msg];
      [|right; eexists; split; [|reflexivity]; destruct err as [[|? ?]|]; cbn; discriminate
       |right; eexists; split; [|reflexivity]; discriminate].
    destruct success, (str_truthy u) eqn:Hu; cbn.
    + left. exists u, status, err. split; [reflexivity|split; [|reflexivity]].
      intros ->. discriminate.
    + right. eexists; split; [|reflexivity]; destruct err as [[|? ?]|]; cbn; discriminate.
    + right. eexists; split; [|reflexivity]; destruct err as [[|? ?]|]; cbn; discriminate.
    + right. eexists; split; [|reflexivity]; destruct err as [[|? ?]|]; cbn; discriminate.
Qed.

(** ** The editor session *)

(** A black mask has no white pixel, so the tint leaves every byte. *)
Lemma tint_fill_black_id (d : ImageData) (l : list Z) :
  imap (tint (idata (fill_black d))) l = l.
Proof.
  apply list_eq. intros j. rewrite list_lookup_imap.
  destruct (l !! j) as [v|]; cbn; [|done]. f_equal.
  unfold tint. rewrite bool_decide_false; [done|].
  rewrite list_lookup_total_alt.
  destruct (decide (j / 4 < iwidth d * iheight d)%nat) as [Hp|Hp].
  - unfold fill_black.
    pose proof (fill_all_lookup 0 0 0 d (j / 4) 0 Hp) as L.
    unfold fill_all in L. cbn [idata] in L.
    rewrite Nat.add_0_r in L. rewrite L by lia. cbn. lia.
  - rewrite lookup_ge_None_2; [cbv; discriminate|].
    rewrite length_mjoin_replicate. cbn [length]. lia.
Qed.

Lemma handleSubmit_display_fields s :
  canvasRef (fst (handleSubmit s)) = canvasRef s /\
  originalImageData (fst (handleSubmit s)) = originalImageData s.
Proof.
  unfold handleSubmit.
  repeat case_match; simplify_eq/=; auto.
Qed.

Lemma drawMask_display B x y s :
  display_is_overlay s -> display_is_overlay (drawMask B x y s).
Proof.
  intros [Himg [o [m [Ho [Hm Hc]]]]].
  unfold drawMask. rewrite Hm.
  destruct (ctx2d_ok B) eqn:Hctx; [|split; eauto 10].
  unfold updateCanvasWithMask. cbn [canvasRef maskCanvasRef originalImageData set_maskCanvas].
  rewrite Hc, Ho, Hctx.
  split; [done|]. exists o, (fill_circle (arc_coverage B x y (inject_Z (brushSize s) / 2)) m).
  cbn. auto.
Qed.

Lemma step_display B e s :
  display_is_overlay s -> display_is_overlay (step B e s).
Proof.
  intros H. pose proof H as [Himg [o [m [Ho [Hm Hc]]]]].
  destruct e; cbn [step].
  - (* StartDrawing *)
    apply drawMask_display. split; [done|]. eauto 10.
  - (* ContinueDrawing *)
    destruct (isDrawing s); [by apply drawMask_display | done].
  - split; [done|]. eauto 10.
  - (* ClearMask *)
    unfold clearMask. rewrite Ho, Hc, Hm.
    destruct (ctx2d_ok B); [|done].
    split; [done|]. exists o, (fill_black m).
    rewrite tint_fill_black_id. cbn. auto.
  - (* GenerateMask *)
    unfold generateMaskImage. rewrite Hm.
    destruct (ctx2d_ok B); split; eauto 10.
  - (* Submit *)
    destruct (handleSubmit_fields s) as [Hi Hmk].
    destruct (handleSubmit_display_fields s) as [Hcs Hos].
    split; [by rewrite Hi|]. exists o, m. rewrite Hcs, Hos, Hmk. auto.
  - split; [done|]. eauto 10.
  - split; [done|]. eauto 10.
  - (* Render *)
    unfold render. destruct (image s) as [i|] eqn:Ei; [|done].
    rewrite Hc, Hm. split; [cbn; congruence|]. cbn. eauto 10.
Qed.

Lemma run_display B es s :
  display_is_overlay s -> display_is_overlay (run B es s).
Proof.
  revert s. induction es as [|e es IH]; intros s H; [done|].
  cbn [run]. apply IH. by apply step_display.
Qed.

(** After an upload whose canvas setup completes, the display canvas
    shows exactly the cached original pixels with the red tint of
    [updateCanvasWithMask] applied where the current MaskBuffer is
    white, and this holds after any later sequence of events: drawing,
    clearing and the other handlers keep display and mask in step. *)
Theorem upload_display_is_overlay (B : Browser) (f cf : File) (img : Img)
    (s : Session) (es : list event) :
  canvasRef s <> None -> maskCanvasRef s <> None -> ctx2d_ok B = true ->
  compressImage B f 4000 = Resolved cf -> read_ok B cf = true ->
  decode B cf = Some img ->
  display_is_overlay (run B es (handleImageUpload B f s)).
Proof.
  intros Hc Hm Hctx Hcomp Hread Hdec.
  apply run_display.
  unfold handleImageUpload. rewrite Hcomp. cbn zeta. rewrite Hread, Hdec.
  unfold setupCanvas. cbn [canvasRef maskCanvasRef setImage setOriginalFile
    setMaskImage setEditedImage setError].
  destruct (canvasRef s) as [c|]; [|congruence].
  destruct (maskCanvasRef s) as [m|]; [|congruence].
  rewrite Hctx. split; [done|].
  eexists _, _; split; [reflexivity|]; split; [reflexivity|].
  cbn [canvasRef set_originalImageData set_maskCanvas set_canvas].
  rewrite tint_fill_black_id. reflexivity.
Qed.

Lemma upload_display_is_overlay_witness :
  canvasRef (run browser_ex [Render] first_upload) <> None /\
  maskCanvasRef (run browser_ex [Render] first_upload) <> None /\
  ctx2d_ok browser_ex = true /\
  compressImage browser_ex photo_png 4000 = Resolved photo_png /\
  read_ok browser_ex photo_png = true /\
  decode browser_ex photo_png = Some img_1x1 /\
  display_is_overlay
    (run browser_ex [StartDrawing 0 0; StopDrawing; Submit; ClearMask; Render]
       (handleImageUpload browser_ex photo_png (run browser_ex [Render] first_upload))).
Proof.
  split; [discriminate|]. split; [discriminate|].
  split; [reflexivity|]. split; [reflexivity|]. split; [reflexivity|].
  split; [reflexivity|].
  apply (upload_display_is_overlay browser_ex photo_png photo_png img_1x1);
    [discriminate | discriminate | reflexivity.. ].
Defined.

(** Whatever happens to the upload (compression rejected or pending,
    file unreadable or undecodable, canvases unmounted), choosing a new
    file discards the previous edited image and exported mask. *)
Theorem handleImageUpload_discards_results (B : Browser) (f : File) (s : Session) :
  editedImage (handleImageUpload B f s) = None /\
  maskImage (handleImageUpload B f s) = None.
Proof.
  unfold handleImageUpload, setupCanvas.
  repeat case_match; cbn; auto.
Qed.



(** Once the pointer is released, later moves do not paint: a
    [StopDrawing] followed by any number of [ContinueDrawing] events
    only clears [isDrawing]. *)
Theorem moves_after_stop_do_not_paint (B : Browser) (pts : list (Q * Q)) (s : Session) :
  run B (StopDrawing :: map (fun pt => ContinueDrawing (fst pt) (snd pt)) pts) s =
  setIsDrawing false s.
Proof.
  cbn [run step]. remember (setIsDrawing false s) as s0 eqn:Hs0.
  assert (Hd : isDrawing s0 = false) by (subst s0; reflexivity).
  clear Hs0. induction pts as [|pt pts IH]; [reflexivity|].
  cbn [map run step]. rewrite Hd. exact IH.
Qed.

(** ** The red overlay and the request *)

Lemma tint_in_range mask j v : 0 <= v <= 255 -> 0 <= tint mask j v <= 255.
Proof.
  intros Hv. unfold tint. case_bool_decide; [|lia].
  destruct (j mod 4)%nat as [|[|[|k]]]; lia.
Qed.

Lemma imap_tint_lookup mask (l : list Z) p k v :
  l !! (4 * p + k)%nat = Some v -> (k < 4)%nat ->
  imap (tint mask) l !!! (4 * p + k)%nat =
    if bool_decide (128 < mask !!! (4 * p)%nat) then
      match k with
      | 0%nat => Z.min 255 (v + 100)
      | 1%nat | 2%nat => Z.max 0 (v - 50)
      | _ => v
      end
    else v.
Proof.
  intros Hl Hk. rewrite list_lookup_total_alt, list_lookup_imap, Hl.
  unfold tint.
  replace ((4 * p + k) / 4)%nat with p
    by (apply Nat.div_unique with k; lia).
  replace ((4 * p + k) mod 4)%nat with k
    by (apply Nat.mod_unique with p; lia).
  reflexivity.
Qed.

(** Repainting the display after a stroke: a pixel whose mask red is
    above 128 is shown as the original with red raised by 100 (capped
    at 255), green and blue lowered by 50 (floored at 0) and alpha kept;
    every other pixel shows the original unchanged; channel values stay
    within 0..255. *)
Theorem updateCanvasWithMask_pixels (B : Browser) (s : Session) (c m o : ImageData) :
  canvasRef s = Some c -> maskCanvasRef s = Some m -> originalImageData s = Some o ->
  ctx2d_ok B = true ->
  exists c', canvasRef (updateCanvasWithMask B s) = Some c' /\
    iwidth c' = iwidth c /\ iheight c' = iheight c /\
    length (idata c') = length (idata o) /\
    (Forall (fun v => 0 <= v <= 255) (idata o) -> Forall (fun v => 0 <= v <= 255) (idata c')) /\
    forall p r g b a,
      pixel (idata o) p = (r, g, b, a) -> (4 * p + 3 < length (idata o))%nat ->
      pixel (idata c') p =
        if is_white (idata m) p
        then (Z.min 255 (r + 100), Z.max 0 (g - 50), Z.max 0 (b - 50), a)
        else (r, g, b, a).
Proof.
  intros Hc Hm Ho Hctx. unfold updateCanvasWithMask. rewrite Hc, Hm, Ho, Hctx.
  eexists; split; [reflexivity|]. cbn [iwidth iheight idata].
  split; [done|]. split; [done|]. split; [apply length_imap|].
  split.
  - intros Hall. apply Forall_lookup_2. intros j x Hj.
    apply list_lookup_imap_Some in Hj as [y [Hy ->]].
    apply tint_in_range. exact (Forall_lookup_1 _ _ _ _ Hall Hy).
  - intros p r g b a Hpx Hlen.
    assert (Hk : forall k, (k < 4)%nat -> exists v, idata o !! (4 * p + k)%nat = Some v /\
                   idata o !!! (4 * p + k)%nat = v).
    { intros k Hk. destruct (lookup_lt_is_Some_2 (idata o) (4 * p + k)%nat) as [v Hv]; [lia|].
      exists v. split; [done|]. by rewrite list_lookup_total_alt, Hv. }
    destruct (Hk 0%nat) as [v0 [L0 T0]]; [lia|].
    destruct (Hk 1%nat) as [v1 [L1 T1]]; [lia|].
    destruct (Hk 2%nat) as [v2 [L2 T2]]; [lia|].
    destruct (Hk 3%nat) as [v3 [L3 T3]]; [lia|].
    rewrite Nat.add_0_r in L0, T0.
    unfold pixel in Hpx |- *. rewrite T0, T1, T2, T3 in Hpx.
    injection Hpx as <- <- <- <-.
    pose proof (imap_tint_lookup (idata m) (idata o) p 0 v0) as I0.
    rewrite Nat.add_0_r in I0. rewrite (I0 L0) by lia.
    rewrite (imap_tint_lookup (idata m) (idata o) p 1 v1 L1),
            (imap_tint_lookup (idata m) (idata o) p 2 v2 L2),
            (imap_tint_lookup (idata m) (idata o) p 3 v3 L3) by lia.
    unfold is_white. by case_bool_decide.
Qed.

Lemma updateCanvasWithMask_pixels_witness :
  canvasRef submit_session = Some (mkImageData 1 1 [10; 20; 30; 255]%Z) /\
  maskCanvasRef submit_session = Some (mkImageData 1 1 [0; 0; 0; 255]%Z) /\
  originalImageData submit_session = Some (mkImageData 1 1 [10; 20; 30; 255]%Z) /\
  ctx2d_ok browser_ex = true /\
  exists c', canvasRef (updateCanvasWithMask browser_ex submit_session) = Some c' /\
    iwidth c' = iwidth (mkImageData 1 1 [10; 20; 30; 255]%Z) /\
    iheight c' = iheight (mkImageData 1 1 [10; 20; 30; 255]%Z) /\
    length (idata c') = length (idata (mkImageData 1 1 [10; 20; 30; 255]%Z)) /\
    (Forall (fun v => 0 <= v <= 255) (idata (mkImageData 1 1 [10; 20; 30; 255]%Z)) ->
     Forall (fun v => 0 <= v <= 255) (idata c')) /\
    forall p r g b a,
      pixel (idata (mkImageData 1 1 [10; 20; 30; 255]%Z)) p = (r, g, b, a) ->
      (4 * p + 3 < length (idata (mkImageData 1 1 [10; 20; 30; 255]%Z)))%nat ->
      pixel (idata c') p =
        if is_white (idata (mkImageData 1 1 [0; 0; 0; 255]%Z)) p
        then (Z.min 255 (r + 100), Z.max 0 (g - 50), Z.max 0 (b - 50), a)
        else (r, g, b, a).
Proof.
  split; [vm_compute; reflexivity|]. split; [vm_compute; reflexivity|].
  split; [vm_compute; reflexivity|]. split; [reflexivity|].
  apply updateCanvasWithMask_pixels; [vm_compute; reflexivity..|reflexivity].
Defined.

(** The request [handleSubmit] issues carries the recorded (compressed)
    file, the prompt exactly as typed (untrimmed, with a non-empty
    trimmed form) and the mask canvas, and marks the session as loading
    with no error. *)
Theorem handleSubmit_request (s s' : Session) (req : EditRequest) :
  handleSubmit s = (s', Some req) ->
  originalFile s = Some (req_image req) /\ req_prompt req = prompt s /\
  js_trim (prompt s) <> [] /\ maskCanvasRef s = Some (req_mask req) /\
  isLoading s' = true /\ error s' = EmptyString.
Proof.
  unfold handleSubmit.
  destruct (originalFile s) as [f|]; [|intros H; injection H; discriminate].
  destruct (js_truthy (js_trim (prompt s))) eqn:Ht; cbn;
    [|intros H; injection H; discriminate].
  destruct (maskCanvasRef s) as [mc|]; cbn; [|intros H; injection H; discriminate].
  intros H; injection H as <- <-. cbn.
  repeat split; try reflexivity.
  intros E. rewrite E in Ht. discriminate.
Qed.

Lemma handleSubmit_request_witness :
  handleSubmit submit_session =
    (fst (handleSubmit submit_session),
     Some (mkEditRequest photo_png (mkImageData 1 1 [0; 0; 0; 255]%Z) [97])) /\
  originalFile submit_session = Some photo_png /\ [97] = prompt submit_session /\
  js_trim (prompt submit_session) <> [] /\
  maskCanvasRef submit_session = Some (mkImageData 1 1 [0; 0; 0; 255]%Z) /\
  isLoading (fst (handleSubmit submit_session)) = true /\
  error (fst (handleSubmit submit_session)) = EmptyString.
Proof.
  split; [vm_compute; reflexivity|].
  apply (handleSubmit_request submit_session (fst (handleSubmit submit_session))
           (mkEditRequest photo_png (mkImageData 1 1 [0; 0; 0; 255]%Z) [97])).
  vm_compute. reflexivity.
Defined.

(** Client and route agree on the prompt: a request the editor sends is
    never refused by the route for a missing or blank prompt, and when
    its image and mask pass the size and type checks the route calls the
    image API with the trimmed prompt. *)
Theorem submitted_request_passes_prompt_checks (s s' : Session) (req : EditRequest)
    (maskFile : File) (msg : string) :
  handleSubmit s = (s', Some req) ->
  (POST_validate (mkFormFields (Some (req_image req)) (Some maskFile) (Some (req_prompt req)))
     = Respond 400 msg ->
   msg <> "Missing required fields: image, mask, and prompt" /\
   msg <> "Prompt must be a non-empty string") /\
  (fsize (req_image req) <= 4194304 -> fsize maskFile <= 4194304 ->
   isValidImageFile (req_image req) = true -> isValidImageFile maskFile = true ->
   POST_validate (mkFormFields (Some (req_image req)) (Some maskFile) (Some (req_prompt req)))
     = CallImagesEdit (req_image req) maskFile (js_trim (req_prompt req))).
Proof.
  intros Hs. destruct (handleSubmit_request s s' req Hs) as (_ & Hp & Ht & _).
  rewrite Hp. clear Hs Hp.
  assert (Htt : js_truthy (js_trim (prompt s)) = true)
    by (destruct (js_trim (prompt s)); [congruence|reflexivity]).
  assert (Hpt : js_truthy (prompt s) = true)
    by (destruct (prompt s); [cbv in Ht; congruence|reflexivity]).
  unfold POST_validate. cbn [ff_image ff_mask ff_prompt]. rewrite Hpt, Htt. cbn [negb].
  split.
  - destruct (fsize (req_image req) >? 4 * 1024 * 1024);
      [intros H; injection H as <-; split; discriminate|].
    destruct (fsize maskFile >? 4 * 1024 * 1024);
      [intros H; injection H as <-; split; discriminate|].
    destruct (isValidImageFile (req_image req)); cbn [negb];
      [|intros H; injection H as <-; split; discriminate].
    destruct (isValidImageFile maskFile); cbn [negb];
      [discriminate|intros H; injection H as <-; split; discriminate].
  - intros Hi Hm Hti Htm.
    replace (fsize (req_image req) >? 4 * 1024 * 1024) with false
      by (symmetry; rewrite Z.gtb_ltb, Z.ltb_ge; lia).
    replace (fsize maskFile >? 4 * 1024 * 1024) with false
      by (symmetry; rewrite Z.gtb_ltb, Z.ltb_ge; lia).
    rewrite Hti, Htm. reflexivity.
Qed.

Lemma submitted_request_passes_prompt_checks_witness :
  handleSubmit submit_session =
    (fst (handleSubmit submit_session),
     Some (mkEditRequest photo_png (mkImageData 1 1 [0; 0; 0; 255]%Z) [97])) /\
  (POST_validate (mkFormFields (Some photo_png) (Some big_png) (Some [97]))
     = Respond 400 "Mask file too large" ->
   "Mask file too large" <> "Missing required fields: image, mask, and prompt" /\
   "Mask file too large" <> "Prompt must be a non-empty string") /\
  (fsize photo_png <= 4194304 -> fsize big_png <= 4194304 ->
   isValidImageFile photo_png = true -> isValidImageFile big_png = true ->
   POST_validate (mkFormFields (Some photo_png) (Some big_png) (Some [97]))
     = CallImagesEdit photo_png big_png (js_trim [97])).
Proof.
  split; [vm_compute; reflexivity|].
  apply (submitted_request_passes_prompt_checks submit_session (fst (handleSubmit submit_session))
           (mkEditRequest photo_png (mkImageData 1 1 [0; 0; 0; 255]%Z) [97]) big_png).
  vm_compute. reflexivity.
Defined.
